(** * esbuild-loader: the per-file transform hook and its tsconfig resolution

    A shallow embedding of the two variants of [ESBuildLoader]:
    - the dependency-aware loader (tsconfig cache, explicit [tsconfig]
      option, automatic discovery), and
    - the early loader of [src/loader.ts] (one project-wide tsconfig).

    The loader is effectful JavaScript: it reads and writes a module-level
    [Map], calls into get-tsconfig, esbuild and [JSON.parse], emits webpack
    warnings and finally calls the [done] callback.  It is embedded in a
    small monad that threads the cache, records every such call in a trace
    and carries JavaScript completions (normal, [return], [throw]). *)

From Stdlib Require Import Ascii.
From stdpp Require Import gmap strings list.

Local Open Scope string_scope.

(** ** JavaScript values the loader looks at *)

(** Parsed JSON: the content of a tsconfig file, a [tsconfigRaw] option, a
    parsed source map. *)
#[warnings="-register-all"] Inductive Json : Type :=
| JNull
| JBool (b : bool)
| JNum (n : Z)
| JStr (s : string)
| JArr (items : list Json)
| JObj (members : list (string * Json)).

(** An object property as [in] and assignment see it: the key may be absent,
    present holding [undefined], or present holding a value. *)
Inductive Field (A : Type) : Type :=
| Missing
| Undefined
| Value (a : A).
Arguments Missing {A}.
Arguments Undefined {A}.
Arguments Value {A} a.

(** ['key' in obj] *)
Definition has_key {A} (f : Field A) : bool :=
  match f with Missing => false | _ => true end.

(** [obj.key = v] where [v] may be [undefined]: the key exists afterwards. *)
Definition assign {A} (v : option A) : Field A :=
  match v with Some a => Value a | None => Undefined end.

(** An [Error] instance ([name] is "Error", "TypeError", ...). *)
Record JsError : Type := mkError { name : string; message : string }.

Definition Error (msg : string) : JsError := mkError "Error" msg.
Definition TypeError (msg : string) : JsError := mkError "TypeError" msg.

(** What a [throw] (or a rejected promise) carries: an [Error] instance, or
    any other value, for which [instanceof Error] is false. *)
Inductive Thrown : Type :=
| ThrownError (e : JsError)
| ThrownValue (v : Json).

(** Truthiness of an optional string: [undefined] and [""] are falsy. *)
Definition truthy (s : option string) : bool :=
  match s with
  | Some s => negb (s =? "")
  | None => false
  end.

(** [a ?? b] *)
Definition nullish {A} (a : option A) (b : A) : A :=
  match a with Some v => v | None => b end.

(** [{ ...base, ...over }] on string-keyed objects: later keys win. *)
Definition spread {V} (base over : gmap string V) : gmap string V := over ∪ base.

(** ** Strings: [includes] and the extension pattern *)

(** [haystack.includes(needle)] *)
Fixpoint includes (haystack needle : string) : bool :=
  String.prefix needle haystack ||
  match haystack with
  | EmptyString => false
  | String _ rest => includes rest needle
  end.

(** The fragment of regular expressions that [tsExtensionsPattern] uses. *)
Inductive Regex : Type :=
| Lit (c : ascii)                  (* an escaped or plain character *)
| Class (cs : list ascii)          (* [...] *)
| Opt (r : Regex)                  (* r? *)
| Seq (r1 r2 : Regex)              (* r1 r2 *)
| Alt (r1 r2 : Regex)              (* (?:r1|r2) *)
| EndAnchor.                       (* $ *)

(** All the ways [r] can match at the start of [s]: the list of what is left
    of [s] after each possible match. *)
Fixpoint matches (r : Regex) (s : string) : list string :=
  match r with
  | Lit c =>
      match s with
      | String a rest => if Ascii.eqb a c then [rest] else []
      | EmptyString => []
      end
  | Class cs =>
      match s with
      | String a rest => if existsb (Ascii.eqb a) cs then [rest] else []
      | EmptyString => []
      end
  | Opt r => matches r s ++ [s]
  | Seq r1 r2 => concat (map (matches r2) (matches r1 s))
  | Alt r1 r2 => matches r1 s ++ matches r2 s
  | EndAnchor =>
      match s with
      | EmptyString => [s]
      | String _ _ => []
      end
  end.

(** [r.test(s)]: the pattern matches at some position of [s]. *)
Fixpoint test (r : Regex) (s : string) : bool :=
  negb (Nat.eqb (length (matches r s)) 0) ||
  match s with
  | EmptyString => false
  | String _ rest => test r rest
  end.

(** [/\.(?:[cm]?ts|[tj]sx)$/] *)
Definition tsExtensionsPattern : Regex :=
  Seq (Lit ".")
    (Seq (Alt (Seq (Opt (Class ["c"; "m"]%char)) (Seq (Lit "t") (Lit "s")))
              (Seq (Class ["t"; "j"]%char) (Seq (Lit "s") (Lit "x"))))
         EndAnchor).

(** ** The tsconfig records and the cache *)

(** get-tsconfig's [TsConfigResult]: the parsed content and the absolute
    path of the file it was read from. *)
Module TsConfigResult.
Record t : Type := mk { config : Json; path : string }.
End TsConfigResult.

(** [const tsconfigCache = new Map<string, TsConfigResult>()] *)
Abbreviation Cache := (gmap string TsConfigResult.t).

Definition tsconfigCache : Cache := ∅.

(** ** Options, requests and results *)

(** esbuild's [TransformOptions] as the loader assembles them: the keys the
    loader sets or reads, and in [passthrough] every other key of the
    request, which the spread of the options bag put there. *)
Module TransformOptions.
Record t : Type := mk {
    target : string;
    loader : string;
    sourcemap : bool;
    sourcefile : string;
    tsconfigRaw : Field Json;
    supported : option (gmap string bool);
    passthrough : gmap string Json;
  }.
End TransformOptions.

(** What the promise returned by a transform resolves to. *)
Module TransformResult.
Record t : Type := mk { code : string; map : option string }.
End TransformResult.

(** An esbuild [transform] function, by the outcome of awaiting its promise:
    a rejection or a result. *)
Definition Transform : Type :=
  string -> TransformOptions.t -> Thrown + TransformResult.t.

(** The values [implementation.transform] may hold. *)
Inductive JsValue : Type :=
| JsUndefined
| JsNull
| JsBoolean (b : bool)
| JsNumber (n : Z)
| JsBigInt (n : Z)
| JsString (s : string)
| JsSymbol (description : string)
| JsObject (v : Json)
| JsFunction (f : Transform).

(** [typeof v] *)
Definition typeof (v : JsValue) : string :=
  match v with
  | JsUndefined => "undefined"
  | JsNull => "object"
  | JsBoolean _ => "boolean"
  | JsNumber _ => "number"
  | JsBigInt _ => "bigint"
  | JsString _ => "string"
  | JsSymbol _ => "symbol"
  | JsObject _ => "object"
  | JsFunction _ => "function"
  end.

(** [v ?? d] on values *)
Definition nullish_value (v d : JsValue) : JsValue :=
  match v with
  | JsUndefined | JsNull => d
  | _ => v
  end.

Module Implementation.
Record t : Type := mk { transform : JsValue }.
End Implementation.

(** [implementation?.transform] *)
Definition transform_member (implementation : option Implementation.t) : JsValue :=
  match implementation with
  | Some i => Implementation.transform i
  | None => JsUndefined
  end.

(** [implementation && typeof implementation.transform !== 'function'] *)
Definition invalid_implementation (implementation : option Implementation.t) : bool :=
  bool_decide (is_Some implementation)
  && negb (typeof (transform_member implementation) =? "function").

(** The loader's options bag ([LoaderOptions]): the two keys the loader
    consumes, the esbuild options it reads, and in [passthrough] every key
    of the bag other than these six. *)
Module LoaderOptions.
Record t : Type := mk {
    implementation : option Implementation.t;
    tsconfig : option string;
    target : option string;
    loader : option string;
    tsconfigRaw : Field Json;
    supported : option (gmap string bool);
    passthrough : gmap string Json;
  }.
End LoaderOptions.

(** The part of webpack's loader context ([this]) that the loader reads.
    [getOptions] is the webpack 5 method when the context has one; [query]
    is what loader-utils reads the options from otherwise. *)
Module LoaderContext.
Record t : Type := mk {
    resourcePath : string;
    sourceMap : bool;
    getOptions : option LoaderOptions.t;
    query : LoaderOptions.t;
  }.
End LoaderContext.

(** loader-utils' [getOptions(this)] *)
Definition getOptions (this : LoaderContext.t) : LoaderOptions.t :=
  LoaderContext.query this.

(** [typeof this.getOptions === 'function' ? this.getOptions() : getOptions(this)] *)
Definition read_options (this : LoaderContext.t) : LoaderOptions.t :=
  match LoaderContext.getOptions this with
  | Some own => own
  | None => getOptions this
  end.

(** The third argument of [done(null, code, map)]: [map && JSON.parse(map)]
    is the falsy [map] itself, or the parsed object. *)
Inductive SourceMap : Type :=
| RawMap (m : option string)
| ParsedMap (j : Json).

(** The arguments of one call of the completion callback. *)
Inductive DoneArgs : Type :=
| DoneError (e : Thrown)
| DoneOk (code : string) (m : SourceMap).

(** ** Effects *)

(** Everything the loader does to the outside, in order. *)
Inductive Event : Type :=
| EvCacheGet (key : string)
| EvCacheSet (key : string) (v : TsConfigResult.t)
| EvParseTsconfig (tsconfigPath : string) (r : Thrown + Json)
| EvGetTsconfig (searchPath configName : string)
                (r : Thrown + option TsConfigResult.t)
| EvFilesMatcher (tsconfig : TsConfigResult.t) (file : string)
| EvEmitWarning (e : JsError)
| EvTransform (source : string) (opts : TransformOptions.t)
| EvJsonParse (text : string)
| EvDone (args : DoneArgs).

(** How a piece of JavaScript ends. *)
Inductive Completion (A : Type) : Type :=
| Normal (a : A)
| Returned              (* a [return] out of the loader's body *)
| Threw (e : Thrown).
Arguments Normal {A} a.
Arguments Returned {A}.
Arguments Threw {A} e.

Record Step (A : Type) : Type := mkStep {
  cache : Cache;
  trace : list Event;
  completion : Completion A;
}.
Arguments mkStep {A}.
Arguments cache {A}.
Arguments trace {A}.
Arguments completion {A}.

(** A computation over the shared cache. *)
Definition Loader (A : Type) : Type := Cache -> Step A.

#[global] Instance loader_ret : MRet Loader :=
  fun A a c => mkStep c [] (Normal a).

#[global] Instance loader_bind : MBind Loader :=
  fun A B k m c =>
    let s := m c in
    match completion s with
    | Normal a =>
        let s' := k a (cache s) in
        mkStep (cache s') (trace s ++ trace s') (completion s')
    | Returned => mkStep (cache s) (trace s) Returned
    | Threw e => mkStep (cache s) (trace s) (Threw e)
    end.

Definition emit (ev : Event) : Loader unit :=
  fun c => mkStep c [ev] (Normal tt).

Definition throw {A} (e : Thrown) : Loader A :=
  fun c => mkStep c [] (Threw e).

Definition return_ {A} : Loader A :=
  fun c => mkStep c [] Returned.

(** [try { body } catch (error) { handler }] *)
Definition try_catch {A} (body : Loader A) (handler : Thrown -> Loader A) : Loader A :=
  fun c =>
    let s := body c in
    match completion s with
    | Threw e =>
        let s' := handler e (cache s) in
        mkStep (cache s') (trace s ++ trace s') (completion s')
    | _ => s
    end.

(** A call that may throw. *)
Definition lift {A} (r : Thrown + A) : Loader A :=
  match r with
  | inl e => throw e
  | inr a => mret a
  end.

(** [tsconfigCache.get(key)] *)
Definition cache_get (key : string) : Loader (option TsConfigResult.t) :=
  fun c => mkStep c [EvCacheGet key] (Normal (c !! key)).

(** [tsconfigCache.set(key, v)] *)
Definition cache_set (key : string) (v : TsConfigResult.t) : Loader unit :=
  fun c => mkStep (<[key := v]> c) [EvCacheSet key v] (Normal tt).

(** [done(...)]: webpack's callback takes the result of the file and comes
    back. *)
Definition done (args : DoneArgs) : Loader unit := emit (EvDone args).

(** [this.emitWarning(e)] *)
Definition emitWarning (e : JsError) : Loader unit := emit (EvEmitWarning e).

(** ** The libraries the loader calls

    get-tsconfig, esbuild, node's [path] and [JSON.parse] are not part of the
    loader; it is verified for any behaviour of theirs.  get-tsconfig is
    handed the loader's cache, so [parseTsconfig] and [getTsconfig] take it
    and return it as they left it. *)
Record Externals : Type := {
  (* path.sep *)
  path_sep : string;
  (* path.resolve(p) *)
  path_resolve : string -> string;
  (* parseTsconfig(tsconfigPath, cache): the parsed content, or throws *)
  parseTsconfig : string -> Cache -> Cache * (Thrown + Json);
  (* getTsconfig(searchPath, configName, cache): the nearest tsconfig, null
     when there is none, or throws *)
  getTsconfig : string -> string -> Cache -> Cache * (Thrown + option TsConfigResult.t);
  (* createFilesMatcher(tsconfig)(file): the config when the file matches
     its files/include/exclude, undefined otherwise *)
  createFilesMatcher : TsConfigResult.t -> string -> option Json;
  (* esbuild's transform *)
  defaultEsbuildTransform : Transform;
  (* JSON.parse(text) *)
  JSON_parse : string -> Thrown + Json;
}.

(** The double quote and the line feed of the loader's messages. *)
Definition dquote : string := String (ascii_of_nat 34) EmptyString.
Definition newline : string := String (ascii_of_nat 10) EmptyString.

Definition invalid_implementation_message (received : string) : string :=
  "esbuild-loader: options.implementation.transform must be an ESBuild transform function. Received "
  +:+ received.

Definition mismatch_message (tsconfigFullPath resourcePath : string) : string :=
  "esbuild-loader] The specified tsconfig at " +:+ dquote +:+ tsconfigFullPath +:+ dquote
  +:+ " was applied to the file " +:+ dquote +:+ resourcePath +:+ dquote
  +:+ " but does not match its " +:+ dquote +:+ "include" +:+ dquote +:+ " patterns".

Definition tsconfig_error_message (message : string) : string :=
  "[esbuild-loader] Error parsing tsconfig.json:" +:+ newline +:+ message.

(** [transformOptions.tsconfigRaw = v] *)
Definition set_tsconfigRaw (v : Field Json) (o : TransformOptions.t) : TransformOptions.t :=
  TransformOptions.mk
    (TransformOptions.target o) (TransformOptions.loader o)
    (TransformOptions.sourcemap o) (TransformOptions.sourcefile o)
    v (TransformOptions.supported o) (TransformOptions.passthrough o).

(** [transformOptions.supported = v] *)
Definition set_supported (v : gmap string bool) (o : TransformOptions.t) : TransformOptions.t :=
  TransformOptions.mk
    (TransformOptions.target o) (TransformOptions.loader o)
    (TransformOptions.sourcemap o) (TransformOptions.sourcefile o)
    (TransformOptions.tsconfigRaw o) (Some v) (TransformOptions.passthrough o).

(** The pass-through keys of the bag that reach the request as they are:
    all but [sourcemap] and [sourcefile], which the object literal sets after
    the spread and so overwrites. *)
Definition forwarded_keys (passthrough : gmap string Json) : gmap string Json :=
  delete "sourcefile" (delete "sourcemap" passthrough).

(** [{ ...esbuildTransformOptions, target, loader, sourcemap, sourcefile }]
    where [esbuildTransformOptions] is the bag without [implementation] and
    [tsconfig] (lines 26-30 and 43-49). *)
Definition initial_transformOptions
    (this : LoaderContext.t) (options : LoaderOptions.t) : TransformOptions.t :=
  TransformOptions.mk
    (nullish (LoaderOptions.target options) "es2015")
    (nullish (LoaderOptions.loader options) "default")
    (LoaderContext.sourceMap this)
    (LoaderContext.resourcePath this)
    (LoaderOptions.tsconfigRaw options)
    (LoaderOptions.supported options)
    (forwarded_keys (LoaderOptions.passthrough options)).

(** The same object literal in src/loader.ts (lines 13-16 and 29-35), where
    [esbuildTransformOptions] is the bag without [implementation] only: a
    [tsconfig] key of the bag is one more key forwarded to the transform. *)
Definition early_transformOptions
    (this : LoaderContext.t) (options : LoaderOptions.t) : TransformOptions.t :=
  TransformOptions.mk
    (nullish (LoaderOptions.target options) "es2015")
    (nullish (LoaderOptions.loader options) "default")
    (LoaderContext.sourceMap this)
    (LoaderContext.resourcePath this)
    (LoaderOptions.tsconfigRaw options)
    (LoaderOptions.supported options)
    (match LoaderOptions.tsconfig options with
     | Some tsconfigPath =>
         <[ "tsconfig" := JStr tsconfigPath ]>
           (forwarded_keys (LoaderOptions.passthrough options))
     | None => forwarded_keys (LoaderOptions.passthrough options)
     end).

(** [{ ...supported }] of a possibly undefined object *)
Definition own_entries (supported : option (gmap string bool)) : gmap string bool :=
  nullish supported ∅.

(** Enable dynamic import by default to support code splitting in Webpack:
    [transformOptions.supported = { 'dynamic-import': true,
    ...transformOptions.supported }] (lines 114-120). *)
Definition enable_dynamic_import (transformOptions : TransformOptions.t)
    : TransformOptions.t :=
  set_supported
    (spread {[ "dynamic-import" := true ]}
            (own_entries (TransformOptions.supported transformOptions)))
    transformOptions.

(** [await transform(source, transformOptions)] *)
Definition call_transform
    (transform : JsValue) (source : string) (opts : TransformOptions.t)
    : Loader TransformResult.t :=
  match transform with
  | JsFunction f => emit (EvTransform source opts);; lift (f source opts)
  | _ => throw (ThrownError (TypeError "transform is not a function"))
  end.

Section DependencyAwareLoader.
Context (ext : Externals).

Definition call_parseTsconfig (tsconfigPath : string) : Loader Json :=
    fun c =>
      let '(c', r) := parseTsconfig ext tsconfigPath c in
      (emit (EvParseTsconfig tsconfigPath r);; lift r) c'.

Definition call_getTsconfig (searchPath configName : string)
      : Loader (option TsConfigResult.t) :=
    fun c =>
      let '(c', r) := getTsconfig ext searchPath configName c in
      (emit (EvGetTsconfig searchPath configName r);; lift r) c'.

Definition call_filesMatcher (tsconfig : TsConfigResult.t) (file : string)
      : Loader (option Json) :=
    emit (EvFilesMatcher tsconfig file);;
    mret (createFilesMatcher ext tsconfig file).

Definition call_JSON_parse (text : string) : Loader Json :=
    emit (EvJsonParse text);; lift (JSON_parse ext text).

  (** The closing [try { ... } catch (error) { done(error) }] of the loader
      (lines 122-127; the same text is lines 41-46 of src/loader.ts). *)
Definition transform_and_complete
      (transform : JsValue) (source : string) (transformOptions : TransformOptions.t)
      : Loader unit :=
    try_catch
      (result ← call_transform transform source transformOptions;
       let code := TransformResult.code result in
       let map := TransformResult.map result in
       m ← (if truthy map
            then parsed ← call_JSON_parse (nullish map EmptyString);
                 mret (ParsedMap parsed)
            else mret (RawMap map));
       done (DoneOk code m))
      (fun error => done (DoneError error)).

  (** [resourcePath.includes(`${path.sep}node_modules${path.sep}`)] *)
Definition isDependency (resourcePath : string) : bool :=
    includes resourcePath (path_sep ext +:+ "node_modules" +:+ path_sep ext).

  (** [`esbuild-loader:${tsconfigFullPath}`] *)
Definition cacheKey (tsconfigFullPath : string) : string :=
    "esbuild-loader:" +:+ tsconfigFullPath.

  (** The branch taken when a tsconfig path is specified (lines 67-87). *)
Definition apply_specified_tsconfig
      (resourcePath tsconfigPath : string) (transformOptions : TransformOptions.t)
      : Loader TransformOptions.t :=
    let tsconfigFullPath := path_resolve ext tsconfigPath in
    cached ← cache_get (cacheKey tsconfigFullPath);
    tsconfig ←
      match cached with
      | Some tsconfig => mret tsconfig
      | None =>
          config ← call_parseTsconfig tsconfigFullPath;
          let tsconfig := TsConfigResult.mk config tsconfigFullPath in
          cache_set (cacheKey tsconfigFullPath) tsconfig;;
          mret tsconfig
      end;
    matches ← call_filesMatcher tsconfig resourcePath;
    (if matches is None
     then emitWarning (Error (mismatch_message tsconfigFullPath resourcePath))
     else mret tt);;
    mret (set_tsconfigRaw (Value (TsConfigResult.config tsconfig)) transformOptions).

  (** The branch that detects the tsconfig file (lines 89-110). *)
Definition apply_detected_tsconfig
      (resourcePath : string) (transformOptions : TransformOptions.t)
      : Loader TransformOptions.t :=
    tsconfig ←
      try_catch
        (call_getTsconfig resourcePath "tsconfig.json")
        (fun error =>
           match error with
           | ThrownError e =>
               let tsconfigError := Error (tsconfig_error_message (message e)) in
               if isDependency resourcePath
               then emitWarning tsconfigError;; mret None
               else done (DoneError (ThrownError tsconfigError));; return_
           | ThrownValue _ => mret None
           end);
    match tsconfig with
    | Some tsconfig =>
        matched ← call_filesMatcher tsconfig resourcePath;
        mret (set_tsconfigRaw (assign matched) transformOptions)
    | None => mret transformOptions
    end.

  (** Whether and how a tsconfig enters the request (lines 51-112). *)
Definition resolve_tsconfig
      (resourcePath : string) (tsconfigPath : option string)
      (transformOptions : TransformOptions.t) : Loader TransformOptions.t :=
    if negb (has_key (TransformOptions.tsconfigRaw transformOptions))
       (* If file is local project, always try to apply tsconfig.json
          If file is dependency, only apply tsconfig.json if .ts *)
       && (negb (isDependency resourcePath) || test tsExtensionsPattern resourcePath)
    then
      if negb (isDependency resourcePath) && truthy tsconfigPath
      then apply_specified_tsconfig resourcePath (nullish tsconfigPath EmptyString)
                                    transformOptions
      else apply_detected_tsconfig resourcePath transformOptions
    else mret transformOptions.

  (** The loader (the default export). *)
Definition ESBuildLoader (this : LoaderContext.t) (source : string) : Loader unit :=
    let options := read_options this in
    let implementation := LoaderOptions.implementation options in
    let tsconfigPath := LoaderOptions.tsconfig options in
    (if invalid_implementation implementation
     then
       done (DoneError (ThrownError (TypeError
         (invalid_implementation_message (typeof (transform_member implementation))))));;
       return_
     else mret tt);;
    let transform :=
      nullish_value (transform_member implementation)
                    (JsFunction (defaultEsbuildTransform ext)) in
    let resourcePath := LoaderContext.resourcePath this in
    let transformOptions := initial_transformOptions this options in
    transformOptions ← resolve_tsconfig resourcePath tsconfigPath transformOptions;
    let transformOptions := enable_dynamic_import transformOptions in
    transform_and_complete transform source transformOptions.

End DependencyAwareLoader.

(** ** The early loader (src/loader.ts)

    One tsconfig for the whole project, imported from the module
    [./tsconfig]; that module is not among the sources, so its exported
    constant is a parameter here. *)
Module SingleTsconfig.
Section EarlyLoader.
Context (ext : Externals).
  (* import { tsconfig } from './tsconfig' *)
Context (tsconfig : option Json).

Definition ESBuildLoader (this : LoaderContext.t) (source : string) : Loader unit :=
    let options := getOptions this in
    let implementation := LoaderOptions.implementation options in
    (if invalid_implementation implementation
     then
       done (DoneError (ThrownError (TypeError
         (invalid_implementation_message (typeof (transform_member implementation))))));;
       return_
     else mret tt);;
    let transform :=
      nullish_value (transform_member implementation)
                    (JsFunction (defaultEsbuildTransform ext)) in
    let transformOptions := early_transformOptions this options in
    let transformOptions :=
      if negb (has_key (TransformOptions.tsconfigRaw transformOptions))
      then set_tsconfigRaw (assign tsconfig) transformOptions
      else transformOptions in
    transform_and_complete ext transform source transformOptions.

End EarlyLoader.
End SingleTsconfig.

(** One build process: webpack runs the loader on one file after the other
    against the same module-level cache.  (The loader touches the cache only
    before its single [await], so the synchronous parts of concurrent
    invocations run one after the other in this order.) *)
Definition Job : Type := LoaderContext.t * string.

Fixpoint build_process (ext : Externals) (jobs : list Job) (c : Cache)
    : Cache * list Event :=
  match jobs with
  | [] => (c, [])
  | job :: rest =>
      let s := ESBuildLoader ext job.1 job.2 c in
      let after := build_process ext rest (cache s) in
      (after.1, (trace s ++ after.2)%list)
  end.

(** ** Reading a trace *)

Definition transform_requests (tr : list Event) : list TransformOptions.t :=
  omap (fun ev => match ev with EvTransform _ o => Some o | _ => None end) tr.

Definition warnings (tr : list Event) : list JsError :=
  omap (fun ev => match ev with EvEmitWarning e => Some e | _ => None end) tr.

Definition done_calls (tr : list Event) : list DoneArgs :=
  omap (fun ev => match ev with EvDone a => Some a | _ => None end) tr.

Definition json_parses (tr : list Event) : list string :=
  omap (fun ev => match ev with EvJsonParse t => Some t | _ => None end) tr.

(** Events of the specified-path branch: the cache lookup, the parse and the
    cache update. *)
Definition is_specified_path_event (ev : Event) : bool :=
  match ev with
  | EvCacheGet _ | EvCacheSet _ _ | EvParseTsconfig _ _ => true
  | _ => false
  end.

(** Events of tsconfig resolution, either branch. *)
Definition is_resolution_event (ev : Event) : bool :=
  match ev with
  | EvCacheGet _ | EvCacheSet _ _ | EvParseTsconfig _ _
  | EvGetTsconfig _ _ _ | EvFilesMatcher _ _ => true
  | _ => false
  end.

Definition specified_path_events (tr : list Event) : list Event :=
  List.filter is_specified_path_event tr.

Definition resolution_events (tr : list Event) : list Event :=
  List.filter is_resolution_event tr.

(** A successful [parseTsconfig] of the file at [full]. *)
Definition is_parse_of (full : string) (ev : Event) : bool :=
  match ev with
  | EvParseTsconfig p (inr _) => String.eqb p full
  | _ => false
  end.

(** ** What the blocks of the loader come to

    The definitions below restate, block by block, what a run of the loader
    leaves behind; the lemmas that follow prove that the loader does just
    that. *)

Section Outcomes.
Context (ext : Externals).

  (** What follows the call of the transform, by the outcome of the call. *)
Definition completion_events (outcome : Thrown + TransformResult.t) : list Event :=
    match outcome with
    | inl e => [EvDone (DoneError e)]
    | inr result =>
        let code := TransformResult.code result in
        match TransformResult.map result with
        | None => [EvDone (DoneOk code (RawMap None))]
        | Some text =>
            if text =? EmptyString
            then [EvDone (DoneOk code (RawMap (Some text)))]
            else EvJsonParse text ::
                 match JSON_parse ext text with
                 | inl e => [EvDone (DoneError e)]
                 | inr parsed => [EvDone (DoneOk code (ParsedMap parsed))]
                 end
        end
    end.

  (** The record the specified-path branch ends up with: the cached one, or
      a freshly parsed one that enters the cache. *)
Inductive resolves (c : Cache) (full : string) : TsConfigResult.t -> Cache -> list Event -> Prop :=
  | resolves_cached tsconfig :
      c !! cacheKey full = Some tsconfig ->
      resolves c full tsconfig c [EvCacheGet (cacheKey full)]
  | resolves_parsed c' config :
      c !! cacheKey full = None ->
      parseTsconfig ext full c = (c', inr config) ->
      resolves c full (TsConfigResult.mk config full)
        (<[cacheKey full := TsConfigResult.mk config full]> c')
        [EvCacheGet (cacheKey full);
         EvParseTsconfig full (inr config);
         EvCacheSet (cacheKey full) (TsConfigResult.mk config full)].

  (** The warning of the specified-path branch. *)
Definition mismatch_events (tsconfig : TsConfigResult.t) (full resourcePath : string)
      : list Event :=
    match createFilesMatcher ext tsconfig resourcePath with
    | Some _ => []
    | None => [EvEmitWarning (Error (mismatch_message full resourcePath))]
    end.

  (** What the detection branch does after [getTsconfig] returned or threw. *)
Definition detected_step
      (resourcePath : string) (opts : TransformOptions.t) (c' : Cache)
      (r : Thrown + option TsConfigResult.t) : Step TransformOptions.t :=
    let call := EvGetTsconfig resourcePath "tsconfig.json" r in
    match r with
    | inr (Some tsconfig) =>
        mkStep c' [call; EvFilesMatcher tsconfig resourcePath]
          (Normal (set_tsconfigRaw
                     (assign (createFilesMatcher ext tsconfig resourcePath)) opts))
    | inr None => mkStep c' [call] (Normal opts)
    | inl (ThrownError e) =>
        let tsconfigError := Error (tsconfig_error_message (message e)) in
        if isDependency ext resourcePath
        then mkStep c' [call; EvEmitWarning tsconfigError] (Normal opts)
        else mkStep c' [call; EvDone (DoneError (ThrownError tsconfigError))] Returned
    | inl (ThrownValue _) => mkStep c' [call] (Normal opts)
    end.

  (** The function behind [implementation?.transform ?? defaultEsbuildTransform]
      once the implementation check has passed. *)
Definition chosen_transform (implementation : option Implementation.t) : Transform :=
    match transform_member implementation with
    | JsFunction f => f
    | _ => defaultEsbuildTransform ext
    end.

End Outcomes.

(** get-tsconfig keeps its own entries in the cache it is handed; the
    loader's entries live under keys ["esbuild-loader:..."], which
    get-tsconfig leaves alone. *)
Definition keeps_loader_entries (ext : Externals) : Prop :=
  (forall tsconfigPath c full,
     (parseTsconfig ext tsconfigPath c).1 !! cacheKey full = c !! cacheKey full)
  /\ (forall searchPath configName c full,
        (getTsconfig ext searchPath configName c).1 !! cacheKey full
        = c !! cacheKey full).

(** The successful parses of the tsconfig at [full] in a trace. *)
Definition successful_parses (full : string) (tr : list Event) : list Event :=
  List.filter (is_parse_of full) tr.

(** The calls of [parseTsconfig] on the file at [full] in a trace, whatever
    came of them. *)
Definition is_parse_call (full : string) (ev : Event) : bool :=
  match ev with
  | EvParseTsconfig p _ => String.eqb p full
  | _ => false
  end.

Definition parse_calls (full : string) (tr : list Event) : list Event :=
  List.filter (is_parse_call full) tr.

(** The file is processed through the specified-path branch, with the
    [tsconfig] option [tsconfigPath]. *)
Definition specifies_tsconfig
    (ext : Externals) (this : LoaderContext.t) (tsconfigPath : string) : Prop :=
  let options := read_options this in
  invalid_implementation (LoaderOptions.implementation options) = false
  /\ isDependency ext (LoaderContext.resourcePath this) = false
  /\ LoaderOptions.tsconfig options = Some tsconfigPath
  /\ tsconfigPath ≠ EmptyString
  /\ has_key (LoaderOptions.tsconfigRaw options) = false.

(** ** A small project to run the loader on *)

Module Fixture.
Definition project_tsconfig : Json :=
    JObj [("compilerOptions", JObj [("jsx", JStr "react")])].

Definition syntax_error : Thrown :=
    ThrownError (mkError "SyntaxError" "Unexpected token } in JSON").

  (** A posix machine whose working directory is [/project]. *)
Definition ext : Externals := {|
    path_sep := "/";
    path_resolve := fun p => "/project/" +:+ p;
    parseTsconfig := fun p c =>
      (c, if p =? "/project/broken.json" then inl syntax_error
          else inr project_tsconfig);
    getTsconfig := fun searchPath configName c =>
      (c, if includes searchPath "/broken/" then inl syntax_error
          else if String.prefix "/project/" searchPath
               then inr (Some (TsConfigResult.mk project_tsconfig "/project/tsconfig.json"))
               else inr None);
    createFilesMatcher := fun tsconfig file =>
      if String.prefix "/project/src/" file
      then Some (TsConfigResult.config tsconfig) else None;
    defaultEsbuildTransform := fun source opts =>
      inr (TransformResult.mk source
             (if TransformOptions.sourcemap opts then Some "{}" else None));
    JSON_parse := fun text =>
      if text =? "{}" then inr (JObj []) else inl syntax_error;
  |}.

Definition options : LoaderOptions.t :=
    LoaderOptions.mk None None None None Missing None ∅.

Definition with_implementation (v : JsValue) : LoaderOptions.t :=
    LoaderOptions.mk (Some (Implementation.mk v)) None None None Missing None ∅.

Definition with_tsconfig (p : string) : LoaderOptions.t :=
    LoaderOptions.mk None (Some p) None None Missing None ∅.

Definition with_tsconfigRaw (raw : Json) : LoaderOptions.t :=
    LoaderOptions.mk None (Some "tsconfig.build.json") None None (Value raw) None ∅.

Definition with_supported (flags : gmap string bool) : LoaderOptions.t :=
    LoaderOptions.mk None None None None Missing (Some flags) ∅.

Definition file (resourcePath : string) (o : LoaderOptions.t) : LoaderContext.t :=
    LoaderContext.mk resourcePath true None o.

Definition raw_config : Json :=
    JObj [("compilerOptions", JObj [("useDefineForClassFields", JBool true)])].

  (** A project file with both [tsconfig] and [tsconfigRaw] in the options. *)
Definition file_with_raw : LoaderContext.t :=
    file "/project/src/index.ts" (with_tsconfigRaw raw_config).

  (** A JavaScript file of a dependency, with a [tsconfig] option. *)
Definition dependency_js : LoaderContext.t :=
    file "/project/node_modules/pkg/index.js" (with_tsconfig "tsconfig.build.json").

  (** A TypeScript file of a dependency, with a [tsconfig] option. *)
Definition dependency_ts : LoaderContext.t :=
    file "/project/node_modules/pkg/index.ts" (with_tsconfig "tsconfig.build.json").

  (** Files under a directory whose tsconfig.json does not parse. *)
Definition broken_project_file : LoaderContext.t :=
    file "/broken/src/index.ts" options.

Definition broken_dependency_file : LoaderContext.t :=
    file "/broken/node_modules/pkg/index.ts" options.

  (** Project files without options: one the tsconfig includes, one it does
      not, and one outside any project. *)
Definition included_file : LoaderContext.t :=
    file "/project/src/index.ts" options.

Definition excluded_file : LoaderContext.t :=
    file "/project/scripts/build.ts" options.

Definition stray_file : LoaderContext.t :=
    file "/tmp/a.ts" options.

  (** The same two project files with [tsconfig: 'tsconfig.build.json']. *)
Definition included_file_with_tsconfig : LoaderContext.t :=
    file "/project/src/index.ts" (with_tsconfig "tsconfig.build.json").

Definition excluded_file_with_tsconfig : LoaderContext.t :=
    file "/project/scripts/build.ts" (with_tsconfig "tsconfig.build.json").

  (** A project file whose options turn one capability off and another on. *)
Definition flagged_file : LoaderContext.t :=
    file "/project/src/index.ts"
      (with_supported {[ "dynamic-import" := false; "top-level-await" := true ]}).

  (** The custom implementation of the test suite: a fixed code and the
      empty string as source map. *)
Definition custom_transform : Transform :=
    fun _ _ =>
      inr (TransformResult.mk
             "export function foo() { return 1; }" (Some EmptyString)).

Definition custom_file : LoaderContext.t :=
    file "/project/src/index.ts" (with_implementation (JsFunction custom_transform)).

  (** Files processed between two lookups of the same tsconfig. *)
Definition other_jobs : list Job :=
    [(included_file, "let a"); (dependency_ts, "let b"); (broken_dependency_file, "let c")].

  (** [{ implementation: { transform: 123 } }] on a project file. *)
Definition number_as_transform : LoaderContext.t :=
    file "/project/src/index.js" (with_implementation (JsNumber 123)).
End Fixture.

(** Unfolds the monad's operations so that a run computes. *)
Ltac run_loader :=
  repeat (progress (
    unfold mbind, loader_bind, mret, loader_ret, emit, done, emitWarning,
      lift, throw, return_, try_catch, cache_get, cache_set, truthy, nullish;
    simpl)).

(** Pushes the readers through an explicit trace. *)
Create Rewrite HintDb trace_readers.

Ltac read_trace :=
  repeat (autorewrite with trace_readers; cbv beta iota).

(** ** Definitions for the further properties *)

(** The endings [tsExtensionsPattern] is written to accept. *)
Definition ts_endings : list string := [".ts"; ".cts"; ".mts"; ".tsx"; ".jsx"].

(** Case analysis on every comparison of a character of the path with a
    character of the pattern. *)
Ltac split_chars :=
  repeat match goal with
         | |- context [Ascii.eqb ?a ?c] =>
             is_var a; destruct (Ascii.eqb_spec a c); [subst a |]; simpl
         end.

(** The same libraries with another esbuild behind [defaultEsbuildTransform]. *)
Definition with_default_transform (g : Transform) (ext : Externals) : Externals :=
  {| path_sep := path_sep ext;
     path_resolve := path_resolve ext;
     parseTsconfig := parseTsconfig ext;
     getTsconfig := getTsconfig ext;
     createFilesMatcher := createFilesMatcher ext;
     defaultEsbuildTransform := g;
     JSON_parse := JSON_parse ext |}.

(** The same options bag with another [tsconfig] option. *)
Definition with_tsconfig_option (p : option string) (options : LoaderOptions.t)
    : LoaderOptions.t :=
  LoaderOptions.mk
    (LoaderOptions.implementation options) p
    (LoaderOptions.target options) (LoaderOptions.loader options)
    (LoaderOptions.tsconfigRaw options) (LoaderOptions.supported options)
    (LoaderOptions.passthrough options).

(** The same options bag with the pass-through key [key] holding [value],
    or without that key. *)
Definition with_bag_key (key : string) (value : option Json) (options : LoaderOptions.t)
    : LoaderOptions.t :=
  LoaderOptions.mk
    (LoaderOptions.implementation options) (LoaderOptions.tsconfig options)
    (LoaderOptions.target options) (LoaderOptions.loader options)
    (LoaderOptions.tsconfigRaw options) (LoaderOptions.supported options)
    (match value with
     | Some v => <[key := v]> (LoaderOptions.passthrough options)
     | None => delete key (LoaderOptions.passthrough options)
     end).

(** The same loader context with its options changed, wherever the loader
    reads them from. *)
Definition override_options
    (update : LoaderOptions.t -> LoaderOptions.t) (this : LoaderContext.t)
    : LoaderContext.t :=
  LoaderContext.mk
    (LoaderContext.resourcePath this) (LoaderContext.sourceMap this)
    (update <$> LoaderContext.getOptions this)
    (update (LoaderContext.query this)).

(** The loader's cache entry for the tsconfig at [full] after a run with
    trace [tr], given the entry before the run. *)
Definition entry_after (full : string) (before : option TsConfigResult.t)
    (tr : list Event) : option TsConfigResult.t :=
  match before with
  | Some tsconfig => Some tsconfig
  | None =>
      match successful_parses full tr with
      | EvParseTsconfig _ (inr config) :: _ => Some (TsConfigResult.mk config full)
      | _ => None
      end
  end.

(** Every record under a loader key names the path the key was made from. *)
Definition keyed_by_path (c : Cache) : Prop :=
  forall full tsconfig,
    c !! cacheKey full = Some tsconfig -> TsConfigResult.path tsconfig = full.

Module Samples.
Definition rejection : Thrown :=
  ThrownError (mkError "Error" "Transform failed with 1 error").

(** An implementation whose transform rejects. *)
Definition failing_transform : Transform := fun _ _ => inl rejection.

Definition failing_file : LoaderContext.t :=
  Fixture.file "/project/src/index.ts"
    (Fixture.with_implementation (JsFunction failing_transform)).

(** A project file pointed at a tsconfig that does not parse. *)
Definition broken_tsconfig_file : LoaderContext.t :=
  Fixture.file "/project/src/index.ts" (Fixture.with_tsconfig "broken.json").

(** Another project file pointed at the same tsconfig. *)
Definition second_broken_tsconfig_file : LoaderContext.t :=
  Fixture.file "/project/src/util.ts" (Fixture.with_tsconfig "broken.json").

(** A project file whose options bag sets [sourcemap] and [sourcefile]. *)
Definition file_with_sourcemap_option : LoaderContext.t :=
  Fixture.file "/project/src/index.ts"
    (LoaderOptions.mk None None None None Missing None
       {[ "sourcemap" := JBool false; "sourcefile" := JStr "elsewhere.ts" ]}).

(** A plain JavaScript file of the project. *)
Definition javascript_file : LoaderContext.t :=
  Fixture.file "/project/src/index.js" Fixture.options.

(** The project's machine, with a get-tsconfig that throws something that is
    not an [Error]. *)
Definition ext_throwing_value : Externals :=
  {| path_sep := path_sep Fixture.ext;
     path_resolve := path_resolve Fixture.ext;
     parseTsconfig := parseTsconfig Fixture.ext;
     getTsconfig := fun _ _ c => (c, inl (ThrownValue (JStr "not an error")));
     createFilesMatcher := createFilesMatcher Fixture.ext;
     defaultEsbuildTransform := defaultEsbuildTransform Fixture.ext;
     JSON_parse := JSON_parse Fixture.ext |}.

(** Another esbuild, which always rejects. *)
Definition other_esbuild : Transform := failing_transform.
End Samples.

(** ** How each block of the loader runs *)

(** One step of a run: a first part that ends normally, or that throws. *)
Lemma bind_run_normal {A B} (m : Loader A) (k : A -> Loader B) c c1 tr a :
  m c = mkStep c1 tr (Normal a) ->
  (m ≫= k) c = mkStep (cache (k a c1)) (tr ++ trace (k a c1))%list (completion (k a c1)).
Proof. intros H. unfold mbind, loader_bind. rewrite H. reflexivity. Qed.

Lemma bind_run_threw {A B} (m : Loader A) (k : A -> Loader B) c c1 tr e :
  m c = mkStep c1 tr (Threw e) ->
  (m ≫= k) c = mkStep c1 tr (Threw e).
Proof. intros H. unfold mbind, loader_bind. rewrite H. reflexivity. Qed.

Section Blocks.
Context (ext : Externals).

Lemma transform_and_complete_run f source opts c :
    transform_and_complete ext (JsFunction f) source opts c =
      mkStep c (EvTransform source opts :: completion_events ext (f source opts)) (Normal tt).
  Proof.
    unfold transform_and_complete, call_transform, completion_events, call_JSON_parse.
    run_loader.
    destruct (f source opts) as [e | [code [text |]]]; run_loader; try reflexivity.
    destruct (text =? EmptyString); run_loader; try reflexivity.
    destruct (JSON_parse ext text); reflexivity.
  Qed.

Lemma apply_specified_resolved resourcePath tsconfigPath opts c tsconfig c' evs :
    resolves ext c (path_resolve ext tsconfigPath) tsconfig c' evs ->
    apply_specified_tsconfig ext resourcePath tsconfigPath opts c =
      mkStep c'
        (evs ++ EvFilesMatcher tsconfig resourcePath
             :: mismatch_events ext tsconfig (path_resolve ext tsconfigPath) resourcePath)%list
        (Normal (set_tsconfigRaw (Value (TsConfigResult.config tsconfig)) opts)).
  Proof.
    intros [t Hhit | c1 config Hmiss Hparse]; unfold apply_specified_tsconfig; cbv zeta.
    - rewrite (bind_run_normal _ _ c c
                 [EvCacheGet (cacheKey (path_resolve ext tsconfigPath))] (Some t))
        by (unfold cache_get; rewrite Hhit; reflexivity).
      rewrite (bind_run_normal (mret t) _ c c [] t) by reflexivity.
      rewrite (bind_run_normal (call_filesMatcher ext t resourcePath) _ c c
                 [EvFilesMatcher t resourcePath]
                 (createFilesMatcher ext t resourcePath)) by reflexivity.
      unfold mismatch_events.
      destruct (createFilesMatcher ext t resourcePath); reflexivity.
    - rewrite (bind_run_normal _ _ c c
                 [EvCacheGet (cacheKey (path_resolve ext tsconfigPath))] None)
        by (unfold cache_get; rewrite Hmiss; reflexivity).
      set (full := path_resolve ext tsconfigPath) in *.
      set (rec := {| TsConfigResult.config := config; TsConfigResult.path := full |}).
      assert (Hcall : call_parseTsconfig ext full c
                      = mkStep c1 [EvParseTsconfig full (inr config)] (Normal config)).
      { unfold call_parseTsconfig. rewrite Hparse. reflexivity. }
      rewrite (bind_run_normal _ _ c (<[cacheKey full := rec]> c1)
                 [EvParseTsconfig full (inr config); EvCacheSet (cacheKey full) rec] rec).
      2: { rewrite (bind_run_normal _ _ c c1 _ config Hcall).
           rewrite (bind_run_normal (cache_set (cacheKey full) rec) _ c1
                      (<[cacheKey full := rec]> c1) [EvCacheSet (cacheKey full) rec] tt)
             by reflexivity.
           reflexivity. }
      rewrite (bind_run_normal (call_filesMatcher ext rec resourcePath) _ _ _
                 [EvFilesMatcher rec resourcePath]
                 (createFilesMatcher ext rec resourcePath)) by reflexivity.
      unfold mismatch_events.
      destruct (createFilesMatcher ext rec resourcePath); reflexivity.
  Qed.

Lemma apply_specified_failed resourcePath tsconfigPath opts c c' e :
    c !! cacheKey (path_resolve ext tsconfigPath) = None ->
    parseTsconfig ext (path_resolve ext tsconfigPath) c = (c', inl e) ->
    apply_specified_tsconfig ext resourcePath tsconfigPath opts c =
      mkStep c'
        [EvCacheGet (cacheKey (path_resolve ext tsconfigPath));
         EvParseTsconfig (path_resolve ext tsconfigPath) (inl e)]
        (Threw e).
  Proof.
    intros Hmiss Hparse.
    unfold apply_specified_tsconfig. cbv zeta.
    rewrite (bind_run_normal _ _ c c
               [EvCacheGet (cacheKey (path_resolve ext tsconfigPath))] None)
      by (unfold cache_get; rewrite Hmiss; reflexivity).
    set (full := path_resolve ext tsconfigPath) in *.
    assert (Hcall : call_parseTsconfig ext full c
                    = mkStep c' [EvParseTsconfig full (inl e)] (Threw e)).
    { unfold call_parseTsconfig. rewrite Hparse. reflexivity. }
    rewrite (bind_run_threw _ _ c c' [EvParseTsconfig full (inl e)] e).
    - reflexivity.
    - apply bind_run_threw. exact Hcall.
  Qed.

Lemma apply_detected_run resourcePath opts c :
    apply_detected_tsconfig ext resourcePath opts c =
      detected_step ext resourcePath opts
        (getTsconfig ext resourcePath "tsconfig.json" c).1
        (getTsconfig ext resourcePath "tsconfig.json" c).2.
  Proof.
    unfold apply_detected_tsconfig, detected_step, call_getTsconfig, call_filesMatcher.
    run_loader.
    destruct (getTsconfig ext resourcePath "tsconfig.json" c) as [c' [[e | v] | [t |]]];
      run_loader; try reflexivity.
    destruct (isDependency ext resourcePath); reflexivity.
  Qed.

End Blocks.

Section Shape.
Context (ext : Externals).

Lemma valid_implementation_chosen implementation :
    invalid_implementation implementation = false ->
    nullish_value (transform_member implementation)
                  (JsFunction (defaultEsbuildTransform ext))
    = JsFunction (chosen_transform ext implementation).
  Proof.
    unfold invalid_implementation, chosen_transform.
    destruct implementation as [[v] |]; simpl; [| reflexivity].
    destruct v; simpl; intros H; try discriminate H; reflexivity.
  Qed.

Lemma invalid_implementation_spec implementation :
    invalid_implementation implementation = true <->
    exists impl, implementation = Some impl
              /\ typeof (Implementation.transform impl) ≠ "function".
  Proof.
    unfold invalid_implementation. split.
    - destruct implementation as [impl |]; simpl; [| discriminate].
      intros H. exists impl. split; [reflexivity |].
      intros Heq. rewrite Heq in H. discriminate H.
    - intros (impl & -> & Hty). simpl.
      destruct (String.eqb_spec (typeof (Implementation.transform impl)) "function");
        [contradiction | reflexivity].
  Qed.

  (** The loader stops at an invalid implementation. *)
Lemma loader_rejects this source c :
    invalid_implementation (LoaderOptions.implementation (read_options this)) = true ->
    ESBuildLoader ext this source c =
      mkStep c
        [EvDone (DoneError (ThrownError (TypeError (invalid_implementation_message
           (typeof (transform_member
                      (LoaderOptions.implementation (read_options this))))))))]
        Returned.
  Proof. intros H. unfold ESBuildLoader. rewrite H. reflexivity. Qed.

  (** Past the check the loader is: resolution, then the transform. *)
Lemma loader_runs this source c :
    invalid_implementation (LoaderOptions.implementation (read_options this)) = false ->
    ESBuildLoader ext this source c =
      let options := read_options this in
      let st := resolve_tsconfig ext (LoaderContext.resourcePath this)
                  (LoaderOptions.tsconfig options)
                  (initial_transformOptions this options) c in
      match completion st with
      | Normal opts =>
          mkStep (cache st)
            (trace st ++ EvTransform source (enable_dynamic_import opts)
               :: completion_events ext
                    (chosen_transform ext (LoaderOptions.implementation options)
                       source (enable_dynamic_import opts)))%list
            (Normal tt)
      | Returned => mkStep (cache st) (trace st) Returned
      | Threw e => mkStep (cache st) (trace st) (Threw e)
      end.
  Proof.
    intros H. unfold ESBuildLoader. rewrite H.
    rewrite (valid_implementation_chosen _ H).
    run_loader.
    destruct (completion (resolve_tsconfig _ _ _ _ c)); try reflexivity.
    rewrite transform_and_complete_run. reflexivity.
  Qed.

Lemma early_loader_rejects tsconfig this source c :
    invalid_implementation (LoaderOptions.implementation (getOptions this)) = true ->
    SingleTsconfig.ESBuildLoader ext tsconfig this source c =
      mkStep c
        [EvDone (DoneError (ThrownError (TypeError (invalid_implementation_message
           (typeof (transform_member
                      (LoaderOptions.implementation (getOptions this))))))))]
        Returned.
  Proof. intros H. unfold SingleTsconfig.ESBuildLoader. rewrite H. reflexivity. Qed.

Lemma early_loader_runs tsconfig this source c :
    invalid_implementation (LoaderOptions.implementation (getOptions this)) = false ->
    SingleTsconfig.ESBuildLoader ext tsconfig this source c =
      let options := getOptions this in
      let opts :=
        if negb (has_key (LoaderOptions.tsconfigRaw options))
        then set_tsconfigRaw (assign tsconfig) (early_transformOptions this options)
        else early_transformOptions this options in
      mkStep c
        (EvTransform source opts
           :: completion_events ext
                (chosen_transform ext (LoaderOptions.implementation options) source opts))
        (Normal tt).
  Proof.
    intros H. unfold SingleTsconfig.ESBuildLoader. rewrite H.
    rewrite (valid_implementation_chosen _ H).
    run_loader. rewrite transform_and_complete_run. reflexivity.
  Qed.

  (** The three ways through [resolve_tsconfig]. *)
Lemma resolve_skipped resourcePath tsconfigPath opts c :
    has_key (TransformOptions.tsconfigRaw opts) = true
    \/ (isDependency ext resourcePath = true
        /\ test tsExtensionsPattern resourcePath = false) ->
    resolve_tsconfig ext resourcePath tsconfigPath opts c = mkStep c [] (Normal opts).
  Proof.
    unfold resolve_tsconfig. intros [-> | [-> ->]]; simpl; [reflexivity |].
    rewrite andb_false_r. reflexivity.
  Qed.

Lemma resolve_specified resourcePath tsconfigPath opts c :
    has_key (TransformOptions.tsconfigRaw opts) = false ->
    isDependency ext resourcePath = false ->
    tsconfigPath ≠ EmptyString ->
    resolve_tsconfig ext resourcePath (Some tsconfigPath) opts c =
      apply_specified_tsconfig ext resourcePath tsconfigPath opts c.
  Proof.
    unfold resolve_tsconfig. intros -> -> Hne. simpl.
    destruct (String.eqb_spec tsconfigPath EmptyString); [contradiction | reflexivity].
  Qed.

Lemma resolve_detected resourcePath tsconfigPath opts c :
    has_key (TransformOptions.tsconfigRaw opts) = false ->
    (isDependency ext resourcePath = false /\ truthy tsconfigPath = false)
    \/ (isDependency ext resourcePath = true
        /\ test tsExtensionsPattern resourcePath = true) ->
    resolve_tsconfig ext resourcePath tsconfigPath opts c =
      apply_detected_tsconfig ext resourcePath opts c.
  Proof.
    unfold resolve_tsconfig. intros -> [[-> ->] | [-> ->]]; reflexivity.
  Qed.

End Shape.

(** Reading the trace of the closing block. *)
Lemma transform_requests_app tr1 tr2 :
  transform_requests (tr1 ++ tr2) = (transform_requests tr1 ++ transform_requests tr2)%list.
Proof. apply omap_app. Qed.

Lemma warnings_app tr1 tr2 :
  warnings (tr1 ++ tr2) = (warnings tr1 ++ warnings tr2)%list.
Proof. apply omap_app. Qed.

Lemma done_calls_app tr1 tr2 :
  done_calls (tr1 ++ tr2) = (done_calls tr1 ++ done_calls tr2)%list.
Proof. apply omap_app. Qed.

Lemma json_parses_app tr1 tr2 :
  json_parses (tr1 ++ tr2) = (json_parses tr1 ++ json_parses tr2)%list.
Proof. apply omap_app. Qed.

Lemma transform_requests_cons ev tr :
  transform_requests (ev :: tr) =
    match ev with
    | EvTransform _ o => o :: transform_requests tr
    | _ => transform_requests tr
    end.
Proof. destruct ev; reflexivity. Qed.

Lemma warnings_cons ev tr :
  warnings (ev :: tr) =
    match ev with
    | EvEmitWarning e => e :: warnings tr
    | _ => warnings tr
    end.
Proof. destruct ev; reflexivity. Qed.

Lemma done_calls_cons ev tr :
  done_calls (ev :: tr) =
    match ev with
    | EvDone a => a :: done_calls tr
    | _ => done_calls tr
    end.
Proof. destruct ev; reflexivity. Qed.

Lemma json_parses_cons ev tr :
  json_parses (ev :: tr) =
    match ev with
    | EvJsonParse t => t :: json_parses tr
    | _ => json_parses tr
    end.
Proof. destruct ev; reflexivity. Qed.

#[global] Hint Rewrite
  transform_requests_app warnings_app done_calls_app json_parses_app
  transform_requests_cons warnings_cons done_calls_cons json_parses_cons
  : trace_readers.

Lemma completion_events_quiet ext outcome :
  transform_requests (completion_events ext outcome) = []
  /\ warnings (completion_events ext outcome) = []
  /\ resolution_events (completion_events ext outcome) = []
  /\ specified_path_events (completion_events ext outcome) = [].
Proof.
  unfold completion_events.
  destruct outcome as [e | [code [text |]]]; simpl; [easy | | easy].
  destruct (text =? EmptyString); [easy |].
  destruct (JSON_parse ext text); easy.
Qed.


(** ** The claims *)

(** C7. An implementation whose [transform] is not a function makes the
    loader (either variant) call [done] once, with a [TypeError] whose
    message ends in [typeof implementation.transform], and return: the
    cache is as before and no transform was called. *)
Theorem invalid_implementation_fails_immediately
    ext tsconfig this source c impl :
  typeof (Implementation.transform impl) ≠ "function" ->
  (LoaderOptions.implementation (read_options this) = Some impl ->
   let s := ESBuildLoader ext this source c in
   trace s = [EvDone (DoneError (ThrownError (TypeError
     ("esbuild-loader: options.implementation.transform must be an ESBuild transform function. Received "
        +:+ typeof (Implementation.transform impl)))))]
   /\ cache s = c /\ completion s = Returned
   /\ transform_requests (trace s) = [])
  /\
  (LoaderOptions.implementation (getOptions this) = Some impl ->
   let s := SingleTsconfig.ESBuildLoader ext tsconfig this source c in
   trace s = [EvDone (DoneError (ThrownError (TypeError
     ("esbuild-loader: options.implementation.transform must be an ESBuild transform function. Received "
        +:+ typeof (Implementation.transform impl)))))]
   /\ cache s = c /\ completion s = Returned
   /\ transform_requests (trace s) = []).
Proof.
  intros Hty.
  split; intros Himpl s; subst s.
  - rewrite loader_rejects.
    + rewrite Himpl. repeat split.
    + apply invalid_implementation_spec. eauto.
  - rewrite early_loader_rejects.
    + rewrite Himpl. repeat split.
    + apply invalid_implementation_spec. eauto.
Qed.

Lemma invalid_implementation_fails_immediately_witness :
  typeof (JsNumber 123) ≠ "function"
  /\ trace (ESBuildLoader Fixture.ext Fixture.number_as_transform "let x = 1" ∅) =
       [EvDone (DoneError (ThrownError (TypeError
          "esbuild-loader: options.implementation.transform must be an ESBuild transform function. Received number")))]
  /\ trace (SingleTsconfig.ESBuildLoader Fixture.ext None
              Fixture.number_as_transform "let x = 1" ∅) =
       [EvDone (DoneError (ThrownError (TypeError
          "esbuild-loader: options.implementation.transform must be an ESBuild transform function. Received number")))].
Proof.
  assert (Hty : typeof (JsNumber 123) ≠ "function") by discriminate.
  pose proof (invalid_implementation_fails_immediately
                Fixture.ext None Fixture.number_as_transform "let x = 1" ∅
                (Implementation.mk (JsNumber 123)) Hty) as [H1 H2].
  split; [exact Hty |].
  split; [apply (H1 eq_refl) | apply (H2 eq_refl)].
Defined.

Lemma resolution_events_app tr1 tr2 :
  resolution_events (tr1 ++ tr2) = (resolution_events tr1 ++ resolution_events tr2)%list.
Proof. apply List.filter_app. Qed.

Lemma specified_path_events_app tr1 tr2 :
  specified_path_events (tr1 ++ tr2)
  = (specified_path_events tr1 ++ specified_path_events tr2)%list.
Proof. apply List.filter_app. Qed.

Lemma specified_path_events_cons ev tr :
  specified_path_events (ev :: tr) =
    if is_specified_path_event ev then ev :: specified_path_events tr
    else specified_path_events tr.
Proof. reflexivity. Qed.

(** When resolution is skipped the loader goes straight to the transform,
    with the request it built from the options. *)
Lemma loader_skips_resolution ext this source c :
  has_key (LoaderOptions.tsconfigRaw (read_options this)) = true
  \/ (isDependency ext (LoaderContext.resourcePath this) = true
      /\ test tsExtensionsPattern (LoaderContext.resourcePath this) = false) ->
  let options := read_options this in
  let s := ESBuildLoader ext this source c in
  cache s = c
  /\ resolution_events (trace s) = []
  /\ transform_requests (trace s) =
       if invalid_implementation (LoaderOptions.implementation options) then []
       else [enable_dynamic_import (initial_transformOptions this options)].
Proof.
  intros Hskip options s. subst s options.
  destruct (invalid_implementation
              (LoaderOptions.implementation (read_options this))) eqn:Himpl.
  - rewrite (loader_rejects _ _ _ _ Himpl). repeat split.
  - rewrite (loader_runs _ _ _ _ Himpl). cbv zeta.
    rewrite resolve_skipped by exact Hskip. simpl.
    destruct (completion_events_quiet ext
                (chosen_transform ext (LoaderOptions.implementation (read_options this))
                   source
                   (enable_dynamic_import
                      (initial_transformOptions this (read_options this)))))
      as (Hreq & _ & Hres & _).
    rewrite Hres. unfold transform_requests in *. simpl. rewrite Hreq.
    repeat split.
Qed.

(** C5. When the options bag has the key [tsconfigRaw], the loader (either
    variant) runs no tsconfig resolution: the cache is untouched, no cache
    lookup, parse, discovery or file match takes place, and the one request
    handed to the transform carries the caller's [tsconfigRaw] as it was.
    The request is the one built from the options: in the early loader,
    which does not consume the [tsconfig] option, that key goes to the
    transform with the others. *)
Theorem caller_tsconfigRaw_short_circuits_resolution
    ext tsconfig this source c :
  (has_key (LoaderOptions.tsconfigRaw (read_options this)) = true ->
   let options := read_options this in
   let s := ESBuildLoader ext this source c in
   cache s = c
   /\ resolution_events (trace s) = []
   /\ transform_requests (trace s) =
        (if invalid_implementation (LoaderOptions.implementation options) then []
         else [enable_dynamic_import (initial_transformOptions this options)])
   /\ (forall r, r ∈ transform_requests (trace s) ->
         TransformOptions.tsconfigRaw r = LoaderOptions.tsconfigRaw options))
  /\
  (has_key (LoaderOptions.tsconfigRaw (getOptions this)) = true ->
   let options := getOptions this in
   let s := SingleTsconfig.ESBuildLoader ext tsconfig this source c in
   cache s = c
   /\ resolution_events (trace s) = []
   /\ transform_requests (trace s) =
        (if invalid_implementation (LoaderOptions.implementation options) then []
         else [early_transformOptions this options])
   /\ (forall r, r ∈ transform_requests (trace s) ->
         TransformOptions.tsconfigRaw r = LoaderOptions.tsconfigRaw options)).
Proof.
  split.
  - intros Hkey options s.
    destruct (loader_skips_resolution ext this source c (or_introl Hkey))
      as (Hc & Hres & Hreq).
    fold options in Hreq. fold s in Hc, Hres, Hreq.
    repeat split; try assumption.
    intros r. rewrite Hreq.
    destruct (invalid_implementation _); [intros Hr; inversion Hr |].
    intros Hr. apply list_elem_of_singleton in Hr. subst r. reflexivity.
  - intros Hkey options s. subst s options.
    destruct (invalid_implementation
                (LoaderOptions.implementation (getOptions this))) eqn:Himpl.
    + rewrite (early_loader_rejects _ _ _ _ _ Himpl). simpl.
      repeat split. intros r Hr. inversion Hr.
    + rewrite (early_loader_runs _ _ _ _ _ Himpl). cbv zeta.
      rewrite Hkey. simpl.
      destruct (completion_events_quiet ext
                  (chosen_transform ext (LoaderOptions.implementation (getOptions this))
                     source (early_transformOptions this (getOptions this))))
        as (Hreq & _ & Hres & _).
      unfold resolution_events, transform_requests in *. simpl.
      rewrite Hres, Hreq.
      repeat split.
      intros r Hr. apply list_elem_of_singleton in Hr. subst r. reflexivity.
Qed.

Lemma caller_tsconfigRaw_short_circuits_resolution_witness :
  has_key (LoaderOptions.tsconfigRaw (read_options Fixture.file_with_raw)) = true
  /\ (let s := ESBuildLoader Fixture.ext Fixture.file_with_raw "class A {}" ∅ in
      cache s = ∅
      /\ resolution_events (trace s) = []
      /\ TransformOptions.tsconfigRaw <$> transform_requests (trace s)
         = [Value Fixture.raw_config])
  /\ (let s := SingleTsconfig.ESBuildLoader Fixture.ext (Some Fixture.project_tsconfig)
                 Fixture.file_with_raw "class A {}" ∅ in
      cache s = ∅
      /\ resolution_events (trace s) = []
      /\ TransformOptions.tsconfigRaw <$> transform_requests (trace s)
         = [Value Fixture.raw_config]
      /\ (λ r, TransformOptions.passthrough r !! "tsconfig")
            <$> transform_requests (trace s)
         = [Some (JStr "tsconfig.build.json")]).
Proof.
  destruct (caller_tsconfigRaw_short_circuits_resolution
              Fixture.ext (Some Fixture.project_tsconfig)
              Fixture.file_with_raw "class A {}" ∅) as [H1 H2].
  split; [reflexivity |].
  split.
  - destruct (H1 eq_refl) as (Hc & Hres & Hreq & _).
    cbv zeta. rewrite Hc, Hres, Hreq. repeat split.
  - destruct (H2 eq_refl) as (Hc & Hres & Hreq & _).
    cbv zeta. rewrite Hc, Hres, Hreq. repeat split.
Defined.

(** C2. For a file under [node_modules] whose path does not match
    [tsExtensionsPattern], no tsconfig resolution runs, whatever the
    [tsconfig] option and whatever get-tsconfig would find: the cache is
    untouched, neither branch leaves an event, and the request handed to the
    transform has the [tsconfigRaw] of the options bag (none, when the caller
    gave none). *)
Theorem non_typescript_dependency_gets_no_tsconfig ext this source c :
  isDependency ext (LoaderContext.resourcePath this) = true ->
  test tsExtensionsPattern (LoaderContext.resourcePath this) = false ->
  let options := read_options this in
  let s := ESBuildLoader ext this source c in
  cache s = c
  /\ resolution_events (trace s) = []
  /\ transform_requests (trace s) =
       (if invalid_implementation (LoaderOptions.implementation options) then []
        else [enable_dynamic_import (initial_transformOptions this options)])
  /\ (forall r, r ∈ transform_requests (trace s) ->
        TransformOptions.tsconfigRaw r = LoaderOptions.tsconfigRaw options).
Proof.
  intros Hdep Hext options s.
  destruct (loader_skips_resolution ext this source c (or_intror (conj Hdep Hext)))
    as (Hc & Hres & Hreq).
  fold options in Hreq. fold s in Hc, Hres, Hreq.
  repeat split; try assumption.
  intros r. rewrite Hreq.
  destruct (invalid_implementation _); [intros Hr; inversion Hr |].
  intros Hr. apply list_elem_of_singleton in Hr. subst r. reflexivity.
Qed.

Lemma non_typescript_dependency_gets_no_tsconfig_witness :
  isDependency Fixture.ext (LoaderContext.resourcePath Fixture.dependency_js) = true
  /\ test tsExtensionsPattern (LoaderContext.resourcePath Fixture.dependency_js) = false
  /\ (let s := ESBuildLoader Fixture.ext Fixture.dependency_js "module.exports = 1" ∅ in
      cache s = ∅
      /\ resolution_events (trace s) = []
      /\ TransformOptions.tsconfigRaw <$> transform_requests (trace s) = [Missing]).
Proof.
  split; [reflexivity |]. split; [reflexivity |].
  destruct (non_typescript_dependency_gets_no_tsconfig
              Fixture.ext Fixture.dependency_js "module.exports = 1" ∅
              eq_refl eq_refl) as (Hc & Hres & Hreq & _).
  cbv zeta. rewrite Hc, Hres, Hreq. repeat split.
Defined.

(** A dependency never enters the specified-path branch. *)
Lemma resolve_dependency ext resourcePath tsconfigPath opts c :
  isDependency ext resourcePath = true ->
  resolve_tsconfig ext resourcePath tsconfigPath opts c =
    if negb (has_key (TransformOptions.tsconfigRaw opts))
       && test tsExtensionsPattern resourcePath
    then apply_detected_tsconfig ext resourcePath opts c
    else mkStep c [] (Normal opts).
Proof.
  intros Hdep. unfold resolve_tsconfig. rewrite Hdep. simpl.
  destruct (negb (has_key (TransformOptions.tsconfigRaw opts))
            && test tsExtensionsPattern resourcePath); reflexivity.
Qed.

Lemma detected_step_trace ext resourcePath opts c' r :
  exists rest,
    trace (detected_step ext resourcePath opts c' r)
    = EvGetTsconfig resourcePath "tsconfig.json" r :: rest
    /\ specified_path_events rest = []
    /\ transform_requests rest = []
    /\ json_parses rest = [].
Proof.
  unfold detected_step.
  destruct r as [[e | v] | [t |]]; try (eexists; repeat split; fail).
  destruct (isDependency ext resourcePath); eexists; repeat split.
Qed.

(** C8. For a file under [node_modules] the specified-path branch never
    runs: its cache lookup, parse and cache update are absent from the
    trace.  When such a file matches [tsExtensionsPattern] (and resolution is
    not short-circuited), the first thing the loader does is call
    [getTsconfig] on the file's path, whether or not a [tsconfig] option was
    given. *)
Theorem dependency_never_takes_specified_path ext this source c :
  isDependency ext (LoaderContext.resourcePath this) = true ->
  let options := read_options this in
  let resourcePath := LoaderContext.resourcePath this in
  let s := ESBuildLoader ext this source c in
  specified_path_events (trace s) = []
  /\ (invalid_implementation (LoaderOptions.implementation options) = false ->
      has_key (LoaderOptions.tsconfigRaw options) = false ->
      test tsExtensionsPattern resourcePath = true ->
      exists rest,
        trace s = EvGetTsconfig resourcePath "tsconfig.json"
                    (getTsconfig ext resourcePath "tsconfig.json" c).2 :: rest).
Proof.
  intros Hdep options resourcePath s. subst s options resourcePath.
  destruct (invalid_implementation
              (LoaderOptions.implementation (read_options this))) eqn:Himpl.
  - rewrite (loader_rejects _ _ _ _ Himpl). simpl. split; [reflexivity | discriminate].
  - rewrite (loader_runs _ _ _ _ Himpl). cbv zeta.
    rewrite (resolve_dependency _ _ _ _ _ Hdep). simpl.
    set (f := chosen_transform ext _).
    destruct (has_key (LoaderOptions.tsconfigRaw (read_options this))); simpl.
    { destruct (completion_events_quiet ext
                  (f source (enable_dynamic_import
                               (initial_transformOptions this (read_options this)))))
        as (_ & _ & _ & Hspec).
      unfold specified_path_events in *. simpl. split; [exact Hspec | discriminate]. }
    destruct (test tsExtensionsPattern (LoaderContext.resourcePath this)); simpl.
    2: { destruct (completion_events_quiet ext
                  (f source (enable_dynamic_import
                               (initial_transformOptions this (read_options this)))))
        as (_ & _ & _ & Hspec).
      unfold specified_path_events in *. simpl. split; [exact Hspec | discriminate]. }
    rewrite apply_detected_run.
    destruct (detected_step_trace ext (LoaderContext.resourcePath this)
                (initial_transformOptions this (read_options this))
                (getTsconfig ext (LoaderContext.resourcePath this) "tsconfig.json" c).1
                (getTsconfig ext (LoaderContext.resourcePath this) "tsconfig.json" c).2)
      as (rest & Htr & Hspec & _).
    destruct (detected_step _ _ _ _ _) as [c1 tr1 [opts | | e]];
      simpl in Htr; subst tr1; cbn [completion trace cache].
    + destruct (completion_events_quiet ext (f source (enable_dynamic_import opts)))
        as (_ & _ & _ & Hquiet).
      split; [| intros _ _ _; eexists; reflexivity].
      rewrite specified_path_events_app, !specified_path_events_cons, Hspec, Hquiet.
      reflexivity.
    + split; [| intros _ _ _; eexists; reflexivity].
      rewrite specified_path_events_cons, Hspec. reflexivity.
    + split; [| intros _ _ _; eexists; reflexivity].
      rewrite specified_path_events_cons, Hspec. reflexivity.
Qed.

Lemma dependency_never_takes_specified_path_witness :
  isDependency Fixture.ext (LoaderContext.resourcePath Fixture.dependency_ts) = true
  /\ (let s := ESBuildLoader Fixture.ext Fixture.dependency_ts "export {}" ∅ in
      specified_path_events (trace s) = []
      /\ exists rest,
           trace s =
             EvGetTsconfig "/project/node_modules/pkg/index.ts" "tsconfig.json"
               (inr (Some (TsConfigResult.mk Fixture.project_tsconfig
                             "/project/tsconfig.json"))) :: rest).
Proof.
  split; [reflexivity |].
  destruct (dependency_never_takes_specified_path
              Fixture.ext Fixture.dependency_ts "export {}" ∅ eq_refl)
    as (Hspec & Hfirst).
  split; [exact Hspec | exact (Hfirst eq_refl eq_refl eq_refl)].
Defined.

(** C3. When [getTsconfig] throws an [Error] during detection: for a file
    outside [node_modules] the loader calls [done] with a new [Error] whose
    message is "[esbuild-loader] Error parsing tsconfig.json:", a line
    feed and the original message, and returns without calling the
    transform; for a file under [node_modules] it emits that same error as a
    warning and goes on to call the transform with no [tsconfigRaw] key. *)
Theorem detection_error_fatal_unless_dependency ext this source c c' e :
  let options := read_options this in
  let resourcePath := LoaderContext.resourcePath this in
  let s := ESBuildLoader ext this source c in
  let call := EvGetTsconfig resourcePath "tsconfig.json" (inl (ThrownError e)) in
  let tsconfigError :=
    Error ("[esbuild-loader] Error parsing tsconfig.json:" +:+ newline +:+ message e) in
  invalid_implementation (LoaderOptions.implementation options) = false ->
  has_key (LoaderOptions.tsconfigRaw options) = false ->
  getTsconfig ext resourcePath "tsconfig.json" c = (c', inl (ThrownError e)) ->
  (isDependency ext resourcePath = false ->
   truthy (LoaderOptions.tsconfig options) = false ->
   trace s = [call; EvDone (DoneError (ThrownError tsconfigError))]
   /\ completion s = Returned
   /\ transform_requests (trace s) = [])
  /\
  (isDependency ext resourcePath = true ->
   test tsExtensionsPattern resourcePath = true ->
   exists r rest,
     trace s = ([call; EvEmitWarning tsconfigError; EvTransform source r] ++ rest)%list
     /\ TransformOptions.tsconfigRaw r = Missing
     /\ warnings (trace s) = [tsconfigError]
     /\ transform_requests (trace s) = [r]
     /\ completion s = Normal tt).
Proof.
  intros options resourcePath s call tsconfigError Himpl Hkey Hget.
  subst s call tsconfigError options resourcePath.
  rewrite (loader_runs _ _ _ _ Himpl). cbv zeta.
  split.
  - intros Hdep Hpath.
    rewrite resolve_detected by (try exact Hkey; left; split; assumption).
    rewrite apply_detected_run, Hget. unfold detected_step. simpl.
    rewrite Hdep. simpl. repeat split.
  - intros Hdep Hext.
    rewrite resolve_detected by (try exact Hkey; right; split; assumption).
    rewrite apply_detected_run, Hget. unfold detected_step. simpl.
    rewrite Hdep. simpl.
    set (r := enable_dynamic_import _).
    destruct (completion_events_quiet ext
                (chosen_transform ext (LoaderOptions.implementation (read_options this))
                   source r)) as (Hreq & Hwarn & _).
    exists r, (completion_events ext
                 (chosen_transform ext (LoaderOptions.implementation (read_options this))
                    source r)).
    unfold warnings, transform_requests in *. simpl. rewrite Hreq, Hwarn.
    repeat split.
    subst r. simpl.
    destruct (LoaderOptions.tsconfigRaw (read_options this)); try discriminate Hkey.
    reflexivity.
Qed.

Lemma detection_error_fatal_unless_dependency_witness :
  (let s := ESBuildLoader Fixture.ext Fixture.broken_project_file "let x" ∅ in
   trace s =
     [EvGetTsconfig "/broken/src/index.ts" "tsconfig.json" (inl Fixture.syntax_error);
      EvDone (DoneError (ThrownError (Error
        ("[esbuild-loader] Error parsing tsconfig.json:" +:+ newline
           +:+ "Unexpected token } in JSON"))))]
   /\ completion s = Returned)
  /\
  (let s := ESBuildLoader Fixture.ext Fixture.broken_dependency_file "let x" ∅ in
   warnings (trace s) =
     [Error ("[esbuild-loader] Error parsing tsconfig.json:" +:+ newline
               +:+ "Unexpected token } in JSON")]
   /\ TransformOptions.tsconfigRaw <$> transform_requests (trace s) = [Missing]
   /\ completion s = Normal tt).
Proof.
  split.
  - destruct (detection_error_fatal_unless_dependency
                Fixture.ext Fixture.broken_project_file "let x" ∅ ∅
                (mkError "SyntaxError" "Unexpected token } in JSON")
                eq_refl eq_refl eq_refl) as [Hfatal _].
    destruct (Hfatal eq_refl eq_refl) as (Htr & Hret & _).
    split; [exact Htr | exact Hret].
  - destruct (detection_error_fatal_unless_dependency
                Fixture.ext Fixture.broken_dependency_file "let x" ∅ ∅
                (mkError "SyntaxError" "Unexpected token } in JSON")
                eq_refl eq_refl eq_refl) as [_ Hwarn].
    destruct (Hwarn eq_refl eq_refl) as (r & rest & _ & Hraw & Hw & Hreq & Hdone).
    cbv zeta. rewrite Hw, Hreq, Hdone. simpl. rewrite Hraw.
    repeat split.
Defined.

(** C4. When the tsconfig comes from detection and [getTsconfig] returns
    (a tsconfig or none), the loader emits no warning, and the request handed
    to the transform holds a tsconfig exactly when one was found and the
    files matcher returned it for this file; a tsconfig that does not match
    leaves [tsconfigRaw] undefined. *)
Theorem detected_tsconfig_applies_only_on_match ext this source c c' found :
  let options := read_options this in
  let resourcePath := LoaderContext.resourcePath this in
  let s := ESBuildLoader ext this source c in
  invalid_implementation (LoaderOptions.implementation options) = false ->
  has_key (LoaderOptions.tsconfigRaw options) = false ->
  (isDependency ext resourcePath = false /\ truthy (LoaderOptions.tsconfig options) = false)
  \/ (isDependency ext resourcePath = true
      /\ test tsExtensionsPattern resourcePath = true) ->
  getTsconfig ext resourcePath "tsconfig.json" c = (c', inr found) ->
  warnings (trace s) = []
  /\ exists r,
       transform_requests (trace s) = [r]
       /\ TransformOptions.tsconfigRaw r =
            match found with
            | Some tsconfig => assign (createFilesMatcher ext tsconfig resourcePath)
            | None => Missing
            end
       /\ (forall config,
             TransformOptions.tsconfigRaw r = Value config <->
             exists tsconfig,
               found = Some tsconfig
               /\ createFilesMatcher ext tsconfig resourcePath = Some config).
Proof.
  intros options resourcePath s Himpl Hkey Hbranch Hget.
  subst s options resourcePath.
  rewrite (loader_runs _ _ _ _ Himpl). cbv zeta.
  rewrite resolve_detected by first [exact Hkey | exact Hbranch].
  rewrite apply_detected_run, Hget. unfold detected_step.
  set (f := chosen_transform ext _).
  assert (Hmissing : LoaderOptions.tsconfigRaw (read_options this) = Missing).
  { destruct (LoaderOptions.tsconfigRaw (read_options this));
      try discriminate Hkey; reflexivity. }
  destruct found as [tsconfig |]; simpl.
  - set (r := enable_dynamic_import _).
    destruct (completion_events_quiet ext (f source r)) as (Hreq & Hwarn & _).
    unfold warnings, transform_requests in *. simpl. rewrite Hreq, Hwarn.
    split; [reflexivity |]. exists r. split; [reflexivity |].
    split; [reflexivity |].
    intros config. subst r. simpl. split.
    + destruct (createFilesMatcher ext tsconfig (LoaderContext.resourcePath this))
        eqn:Hm; simpl; intros Heq; inversion Heq; subst. eauto.
    + intros (t & [= <-] & ->). reflexivity.
  - set (r := enable_dynamic_import _).
    destruct (completion_events_quiet ext (f source r)) as (Hreq & Hwarn & _).
    unfold warnings, transform_requests in *. simpl. rewrite Hreq, Hwarn.
    split; [reflexivity |]. exists r. split; [reflexivity |].
    subst r. simpl. rewrite Hmissing.
    split; [reflexivity |].
    intros config. split; [discriminate |]. intros (t & Hnone & _). discriminate.
Qed.

Lemma detected_tsconfig_applies_only_on_match_witness :
  (let s := ESBuildLoader Fixture.ext Fixture.included_file "let x: number" ∅ in
   warnings (trace s) = []
   /\ TransformOptions.tsconfigRaw <$> transform_requests (trace s)
      = [Value Fixture.project_tsconfig])
  /\
  (let s := ESBuildLoader Fixture.ext Fixture.excluded_file "let x: number" ∅ in
   warnings (trace s) = []
   /\ TransformOptions.tsconfigRaw <$> transform_requests (trace s) = [Undefined]).
Proof.
  split.
  - destruct (detected_tsconfig_applies_only_on_match
                Fixture.ext Fixture.included_file "let x: number" ∅ ∅
                (Some (TsConfigResult.mk Fixture.project_tsconfig "/project/tsconfig.json"))
                eq_refl eq_refl (or_introl (conj eq_refl eq_refl)) eq_refl)
      as (Hwarn & r & Hreq & Hraw & _).
    cbv zeta. rewrite Hwarn, Hreq. simpl. rewrite Hraw. repeat split.
  - destruct (detected_tsconfig_applies_only_on_match
                Fixture.ext Fixture.excluded_file "let x: number" ∅ ∅
                (Some (TsConfigResult.mk Fixture.project_tsconfig "/project/tsconfig.json"))
                eq_refl eq_refl (or_introl (conj eq_refl eq_refl)) eq_refl)
      as (Hwarn & r & Hreq & Hraw & _).
    cbv zeta. rewrite Hwarn, Hreq. simpl. rewrite Hraw. repeat split.
Defined.

(** C1. For a file outside [node_modules], with a non-empty [tsconfig]
    option and no [tsconfigRaw] key, once the tsconfig is resolved (found in
    the cache, or parsed and cached), the request handed to the transform
    carries its content whether or not the files matcher accepts the file,
    and the loader warns exactly when the matcher rejects the file; the
    warning names the resolved tsconfig path and the file. *)
Theorem specified_tsconfig_applied_with_mismatch_warning
    ext this source c tsconfigPath tsconfig c' evs :
  let options := read_options this in
  let resourcePath := LoaderContext.resourcePath this in
  let tsconfigFullPath := path_resolve ext tsconfigPath in
  let s := ESBuildLoader ext this source c in
  invalid_implementation (LoaderOptions.implementation options) = false ->
  isDependency ext resourcePath = false ->
  LoaderOptions.tsconfig options = Some tsconfigPath ->
  tsconfigPath ≠ EmptyString ->
  has_key (LoaderOptions.tsconfigRaw options) = false ->
  resolves ext c tsconfigFullPath tsconfig c' evs ->
  (exists r,
     transform_requests (trace s) = [r]
     /\ TransformOptions.tsconfigRaw r = Value (TsConfigResult.config tsconfig))
  /\ warnings (trace s) =
       match createFilesMatcher ext tsconfig resourcePath with
       | Some _ => []
       | None =>
           [Error ("esbuild-loader] The specified tsconfig at "
                   +:+ dquote +:+ tsconfigFullPath +:+ dquote
                   +:+ " was applied to the file "
                   +:+ dquote +:+ resourcePath +:+ dquote
                   +:+ " but does not match its "
                   +:+ dquote +:+ "include" +:+ dquote +:+ " patterns")]
       end.
Proof.
  intros options resourcePath tsconfigFullPath s Himpl Hdep Hpath Hne Hkey Hres.
  subst s options resourcePath tsconfigFullPath.
  rewrite (loader_runs _ _ _ _ Himpl). cbv zeta. rewrite Hpath.
  rewrite resolve_specified by first [exact Hkey | exact Hdep | exact Hne].
  rewrite (apply_specified_resolved _ _ _ _ _ _ _ _ Hres).
  cbn [completion trace cache].
  set (r := enable_dynamic_import _).
  set (f := chosen_transform ext _).
  destruct (completion_events_quiet ext (f source r)) as (Hreq & Hwarn & _).
  assert (Hevs : transform_requests evs = [] /\ warnings evs = []).
  { destruct Hres; split; reflexivity. }
  destruct Hevs as [Hevs_req Hevs_warn].
  unfold mismatch_events, mismatch_message.
  destruct (createFilesMatcher ext tsconfig (LoaderContext.resourcePath this));
    read_trace; rewrite Hevs_req, Hevs_warn, Hreq, Hwarn;
    (split; [exists r; split; reflexivity | reflexivity]).
Qed.

Lemma specified_tsconfig_applied_with_mismatch_warning_witness :
  (let s := ESBuildLoader Fixture.ext Fixture.included_file_with_tsconfig "let x" ∅ in
   TransformOptions.tsconfigRaw <$> transform_requests (trace s)
     = [Value Fixture.project_tsconfig]
   /\ warnings (trace s) = [])
  /\
  (let s := ESBuildLoader Fixture.ext Fixture.excluded_file_with_tsconfig "let x" ∅ in
   TransformOptions.tsconfigRaw <$> transform_requests (trace s)
     = [Value Fixture.project_tsconfig]
   /\ warnings (trace s) =
        [Error ("esbuild-loader] The specified tsconfig at "
                +:+ dquote +:+ "/project/tsconfig.build.json" +:+ dquote
                +:+ " was applied to the file "
                +:+ dquote +:+ "/project/scripts/build.ts" +:+ dquote
                +:+ " but does not match its "
                +:+ dquote +:+ "include" +:+ dquote +:+ " patterns")]).
Proof.
  assert (Hne : "tsconfig.build.json" ≠ EmptyString) by discriminate.
  split.
  - destruct (specified_tsconfig_applied_with_mismatch_warning
                Fixture.ext Fixture.included_file_with_tsconfig "let x" ∅
                "tsconfig.build.json" _ _ _
                eq_refl eq_refl eq_refl Hne eq_refl
                (resolves_parsed Fixture.ext ∅ "/project/tsconfig.build.json"
                   ∅ Fixture.project_tsconfig (lookup_empty _) eq_refl))
      as ((r & Hreq & Hraw) & Hwarn).
    cbv zeta. rewrite Hreq, Hwarn. simpl. rewrite Hraw. repeat split.
  - destruct (specified_tsconfig_applied_with_mismatch_warning
                Fixture.ext Fixture.excluded_file_with_tsconfig "let x" ∅
                "tsconfig.build.json" _ _ _
                eq_refl eq_refl eq_refl Hne eq_refl
                (resolves_parsed Fixture.ext ∅ "/project/tsconfig.build.json"
                   ∅ Fixture.project_tsconfig (lookup_empty _) eq_refl))
      as ((r & Hreq & Hraw) & Hwarn).
    cbv zeta. rewrite Hreq, Hwarn. simpl. rewrite Hraw. repeat split.
Defined.

(** ** Every way through the resolution *)

Lemma apply_specified_cases ext resourcePath tsconfigPath opts c :
  (exists tsconfig c' evs,
     resolves ext c (path_resolve ext tsconfigPath) tsconfig c' evs
     /\ apply_specified_tsconfig ext resourcePath tsconfigPath opts c =
          mkStep c'
            (evs ++ EvFilesMatcher tsconfig resourcePath
               :: mismatch_events ext tsconfig (path_resolve ext tsconfigPath)
                    resourcePath)%list
            (Normal (set_tsconfigRaw (Value (TsConfigResult.config tsconfig)) opts)))
  \/
  (exists c' e,
     c !! cacheKey (path_resolve ext tsconfigPath) = None
     /\ parseTsconfig ext (path_resolve ext tsconfigPath) c = (c', inl e)
     /\ apply_specified_tsconfig ext resourcePath tsconfigPath opts c =
          mkStep c'
            [EvCacheGet (cacheKey (path_resolve ext tsconfigPath));
             EvParseTsconfig (path_resolve ext tsconfigPath) (inl e)]
            (Threw e)).
Proof.
  destruct (c !! cacheKey (path_resolve ext tsconfigPath)) as [tsconfig |] eqn:Hget.
  - left. exists tsconfig, c, [EvCacheGet (cacheKey (path_resolve ext tsconfigPath))].
    assert (Hres : resolves ext c (path_resolve ext tsconfigPath) tsconfig c
                     [EvCacheGet (cacheKey (path_resolve ext tsconfigPath))])
      by (constructor; exact Hget).
    split; [exact Hres | apply apply_specified_resolved; exact Hres].
  - destruct (parseTsconfig ext (path_resolve ext tsconfigPath) c)
      as [c' [e | config]] eqn:Hparse.
    + right. exists c', e. repeat split; try assumption.
      apply apply_specified_failed; assumption.
    + left. eexists _, _, _. split.
      * eapply resolves_parsed; eassumption.
      * apply apply_specified_resolved. eapply resolves_parsed; eassumption.
Qed.

Lemma resolves_quiet ext c full tsconfig c' evs :
  resolves ext c full tsconfig c' evs ->
  transform_requests evs = [] /\ json_parses evs = []
  /\ done_calls evs = [] /\ warnings evs = [].
Proof. intros []; repeat split. Qed.

Lemma mismatch_events_quiet ext tsconfig full resourcePath :
  transform_requests (mismatch_events ext tsconfig full resourcePath) = []
  /\ json_parses (mismatch_events ext tsconfig full resourcePath) = []
  /\ done_calls (mismatch_events ext tsconfig full resourcePath) = [].
Proof.
  unfold mismatch_events.
  destruct (createFilesMatcher ext tsconfig resourcePath); repeat split.
Qed.

(** The resolution calls neither the transform nor [JSON.parse]; when it
    ends normally it has not called [done], and it has changed nothing of the
    request but [tsconfigRaw]. *)
Lemma resolve_tsconfig_inv ext resourcePath tsconfigPath opts c :
  let st := resolve_tsconfig ext resourcePath tsconfigPath opts c in
  transform_requests (trace st) = []
  /\ json_parses (trace st) = []
  /\ forall opts', completion st = Normal opts' ->
       done_calls (trace st) = []
       /\ TransformOptions.supported opts' = TransformOptions.supported opts.
Proof.
  unfold resolve_tsconfig.
  destruct (negb (has_key (TransformOptions.tsconfigRaw opts))
            && (negb (isDependency ext resourcePath)
                || test tsExtensionsPattern resourcePath)).
  2: { cbv zeta. cbn [trace completion mret loader_ret].
       split; [reflexivity |]. split; [reflexivity |].
       intros opts' [= <-]. split; reflexivity. }
  destruct (negb (isDependency ext resourcePath) && truthy tsconfigPath).
  - destruct (apply_specified_cases ext resourcePath
                (nullish tsconfigPath EmptyString) opts c)
      as [(tsconfig & c' & evs & Hres & ->) | (c' & e & _ & _ & ->)].
    + destruct (resolves_quiet _ _ _ _ _ _ Hres) as (Hreq & Hjson & Hdone & _).
      destruct (mismatch_events_quiet ext tsconfig
                  (path_resolve ext (nullish tsconfigPath EmptyString)) resourcePath)
        as (Hreq' & Hjson' & Hdone').
      cbv zeta. cbn [trace completion]. read_trace.
      rewrite Hreq, Hjson, Hdone, Hreq', Hjson', Hdone'.
      split; [reflexivity |]. split; [reflexivity |].
      intros opts' [= <-]. split; reflexivity.
    + cbv zeta. cbn [trace completion].
      split; [reflexivity |]. split; [reflexivity |]. discriminate.
  - cbv zeta. rewrite apply_detected_run.
    generalize (getTsconfig ext resourcePath "tsconfig.json" c).1 as c'.
    generalize (getTsconfig ext resourcePath "tsconfig.json" c).2 as r.
    intros r c'. unfold detected_step.
    destruct r as [[e | v] | [t |]]; try destruct (isDependency ext resourcePath);
      cbn [trace completion];
      (split; [reflexivity |]; split; [reflexivity |]);
      try discriminate; intros opts' [= <-]; split; reflexivity.
Qed.

(** A run either never reaches the transform, or is: some resolution, one
    call of the transform, and what follows that call. *)
Lemma loader_trace_cases ext this source c :
  let options := read_options this in
  let f := chosen_transform ext (LoaderOptions.implementation options) in
  let s := ESBuildLoader ext this source c in
  (transform_requests (trace s) = [] /\ json_parses (trace s) = [])
  \/ (exists pre opts,
        trace s = (pre ++ EvTransform source (enable_dynamic_import opts)
                     :: completion_events ext
                          (f source (enable_dynamic_import opts)))%list
        /\ transform_requests pre = []
        /\ json_parses pre = []
        /\ done_calls pre = []
        /\ TransformOptions.supported opts = LoaderOptions.supported options).
Proof.
  intros options f s. subst s f options.
  destruct (invalid_implementation
              (LoaderOptions.implementation (read_options this))) eqn:Himpl.
  - left. rewrite (loader_rejects _ _ _ _ Himpl). split; reflexivity.
  - rewrite (loader_runs _ _ _ _ Himpl). cbv zeta.
    destruct (resolve_tsconfig_inv ext (LoaderContext.resourcePath this)
                (LoaderOptions.tsconfig (read_options this))
                (initial_transformOptions this (read_options this)) c)
      as (Hreq & Hjson & Hnormal).
    destruct (resolve_tsconfig ext _ _ _ c) as [c1 tr1 [opts | | e]];
      cbn [trace completion cache] in *.
    + right. exists tr1, opts.
      destruct (Hnormal opts eq_refl) as [Hdone Hsup].
      repeat split; assumption.
    + left. split; assumption.
    + left. split; assumption.
Qed.

Lemma elem_of_transform_requests source r tr :
  EvTransform source r ∈ tr -> r ∈ transform_requests tr.
Proof.
  intros Hin. unfold transform_requests.
  apply list_elem_of_omap. exists (EvTransform source r). split; [exact Hin | reflexivity].
Qed.

Lemma completion_events_falsy_map ext result :
  truthy (TransformResult.map result) = false ->
  completion_events ext (inr result) =
    [EvDone (DoneOk (TransformResult.code result)
                    (RawMap (TransformResult.map result)))].
Proof.
  unfold completion_events, truthy.
  destruct (TransformResult.map result) as [text |]; [| reflexivity].
  destruct (text =? EmptyString); [reflexivity | discriminate].
Qed.

Lemma completion_events_json_parse ext outcome text :
  text ∈ json_parses (completion_events ext outcome) ->
  text ≠ EmptyString
  /\ exists result, outcome = inr result /\ TransformResult.map result = Some text.
Proof.
  unfold completion_events.
  destruct outcome as [e | result]; [intros H; inversion H |].
  destruct (TransformResult.map result) as [m |] eqn:Hmap; [| intros H; inversion H].
  destruct (String.eqb_spec m EmptyString) as [-> | Hne]; [intros H; inversion H |].
  intros Hin.
  assert (text = m) as ->.
  { destruct (JSON_parse ext m); cbn in Hin;
      apply list_elem_of_singleton in Hin; exact Hin. }
  split; [exact Hne | eauto].
Qed.

(** C9. Every request the loader hands to the transform has a [supported]
    map; in it the flag "dynamic-import" is the caller's own when the
    caller's [supported] has that key and [true] otherwise, and every other
    key is as in the caller's [supported]. *)
Theorem dynamic_import_supported_by_default ext this source c :
  let caller := own_entries (LoaderOptions.supported (read_options this)) in
  forall r,
    r ∈ transform_requests (trace (ESBuildLoader ext this source c)) ->
    exists flags,
      TransformOptions.supported r = Some flags
      /\ flags !! "dynamic-import" = Some (default true (caller !! "dynamic-import"))
      /\ (forall k v, caller !! k = Some v -> flags !! k = Some v)
      /\ (forall k, k ≠ "dynamic-import" -> flags !! k = caller !! k).
Proof.
  intros caller r Hr. subst caller.
  destruct (loader_trace_cases ext this source c)
    as [[Hnone _] | (pre & opts & Htr & Hpre & _ & _ & Hsup)].
  - rewrite Hnone in Hr. inversion Hr.
  - rewrite Htr in Hr. revert Hr. read_trace.
    destruct (completion_events_quiet ext
                (chosen_transform ext (LoaderOptions.implementation (read_options this))
                   source (enable_dynamic_import opts))) as (-> & _).
    rewrite Hpre. cbn [app]. intros Hr. apply list_elem_of_singleton in Hr. subst r.
    unfold enable_dynamic_import, set_supported, spread.
    cbn [TransformOptions.supported]. rewrite Hsup.
    eexists. split; [reflexivity |].
    set (caller := own_entries (LoaderOptions.supported (read_options this))).
    repeat split.
    + rewrite lookup_union. destruct (caller !! "dynamic-import") as [b |] eqn:Hb.
      * rewrite lookup_singleton_eq. reflexivity.
      * rewrite lookup_singleton_eq. reflexivity.
    + intros k v Hk. apply lookup_union_Some_l. exact Hk.
    + intros k Hk. rewrite lookup_union, lookup_singleton_ne by congruence.
      destruct (caller !! k); reflexivity.
Qed.

Lemma dynamic_import_supported_by_default_witness :
  (let r := enable_dynamic_import
              (set_tsconfigRaw (Value Fixture.project_tsconfig)
                 (initial_transformOptions Fixture.included_file Fixture.options)) in
   r ∈ transform_requests (trace (ESBuildLoader Fixture.ext Fixture.included_file "let x" ∅))
   /\ exists flags,
        TransformOptions.supported r = Some flags
        /\ flags !! "dynamic-import" = Some true)
  /\
  (let r := enable_dynamic_import
              (set_tsconfigRaw (Value Fixture.project_tsconfig)
                 (initial_transformOptions Fixture.flagged_file
                    (read_options Fixture.flagged_file))) in
   r ∈ transform_requests (trace (ESBuildLoader Fixture.ext Fixture.flagged_file "let x" ∅))
   /\ exists flags,
        TransformOptions.supported r = Some flags
        /\ flags !! "dynamic-import" = Some false
        /\ flags !! "top-level-await" = Some true).
Proof.
  split; cbv zeta.
  - match goal with |- ?r ∈ ?l /\ _ =>
      assert (Hin : r ∈ l) by (apply list_elem_of_here)
    end.
    split; [exact Hin |].
    destruct (dynamic_import_supported_by_default
                Fixture.ext Fixture.included_file "let x" ∅ _ Hin)
      as (flags & Hsup & Hdyn & _).
    exists flags. split; [exact Hsup | exact Hdyn].
  - match goal with |- ?r ∈ ?l /\ _ =>
      assert (Hin : r ∈ l) by (apply list_elem_of_here)
    end.
    split; [exact Hin |].
    destruct (dynamic_import_supported_by_default
                Fixture.ext Fixture.flagged_file "let x" ∅ _ Hin)
      as (flags & Hsup & Hdyn & Hkeep & _).
    exists flags. split; [exact Hsup |]. split; [exact Hdyn |].
    apply Hkeep. reflexivity.
Defined.

(** The same reading of the early loader's trace. *)
Lemma early_loader_trace_cases ext tsconfig this source c :
  let options := getOptions this in
  let f := chosen_transform ext (LoaderOptions.implementation options) in
  let s := SingleTsconfig.ESBuildLoader ext tsconfig this source c in
  (transform_requests (trace s) = [] /\ json_parses (trace s) = [])
  \/ (exists opts, trace s = EvTransform source opts :: completion_events ext (f source opts)).
Proof.
  intros options f s. subst s f options.
  destruct (invalid_implementation
              (LoaderOptions.implementation (getOptions this))) eqn:Himpl.
  - left. rewrite (early_loader_rejects _ _ _ _ _ Himpl). split; reflexivity.
  - right. rewrite (early_loader_runs _ _ _ _ _ Himpl). eexists. reflexivity.
Qed.

(** What the closing block does with the source map, on a trace that is
    some quiet prefix, the call of the transform and what follows it. *)
Lemma source_map_handling ext (f : Transform) source pre opts tr :
  tr = (pre ++ EvTransform source opts :: completion_events ext (f source opts))%list ->
  transform_requests pre = [] -> json_parses pre = [] -> done_calls pre = [] ->
  (forall r result,
     EvTransform source r ∈ tr ->
     f source r = inr result ->
     truthy (TransformResult.map result) = false ->
     json_parses tr = []
     /\ done_calls tr = [DoneOk (TransformResult.code result)
                                (RawMap (TransformResult.map result))])
  /\ (forall text,
        text ∈ json_parses tr ->
        text ≠ EmptyString
        /\ exists r result,
             EvTransform source r ∈ tr
             /\ f source r = inr result
             /\ TransformResult.map result = Some text).
Proof.
  intros -> Hreq Hjson Hdone.
  destruct (completion_events_quiet ext (f source opts)) as (Hquiet & _).
  split.
  - intros r result Hin Hres Hfalsy.
    apply elem_of_transform_requests in Hin. revert Hin.
    read_trace. rewrite Hreq, Hjson, Hdone, Hquiet. cbn [app].
    intros Hin. apply list_elem_of_singleton in Hin. subst r.
    rewrite Hres, (completion_events_falsy_map _ _ Hfalsy).
    split; reflexivity.
  - intros text. read_trace. rewrite Hjson. cbn [app]. intros Hin.
    destruct (completion_events_json_parse _ _ _ Hin) as (Hne & result & Hres & Hmap).
    split; [exact Hne |].
    exists opts, result. split; [| split; assumption].
    apply elem_of_app. right. apply list_elem_of_here.
Qed.

(** C10. In either variant, when the transform called by the loader
    resolves with a falsy [map] ([undefined] or the empty string), the loader
    never calls [JSON.parse] and calls [done] once, with the code and that
    same [map]; and any text the loader hands to [JSON.parse] is the
    non-empty [map] of the transform's result. *)
Theorem falsy_source_map_forwarded_unparsed ext tsconfig this source c :
  (let f := chosen_transform ext (LoaderOptions.implementation (read_options this)) in
   let s := ESBuildLoader ext this source c in
   (forall r result,
      EvTransform source r ∈ trace s ->
      f source r = inr result ->
      truthy (TransformResult.map result) = false ->
      json_parses (trace s) = []
      /\ done_calls (trace s) = [DoneOk (TransformResult.code result)
                                        (RawMap (TransformResult.map result))])
   /\ (forall text,
         text ∈ json_parses (trace s) ->
         text ≠ EmptyString
         /\ exists r result,
              EvTransform source r ∈ trace s
              /\ f source r = inr result
              /\ TransformResult.map result = Some text))
  /\
  (let f := chosen_transform ext (LoaderOptions.implementation (getOptions this)) in
   let s := SingleTsconfig.ESBuildLoader ext tsconfig this source c in
   (forall r result,
      EvTransform source r ∈ trace s ->
      f source r = inr result ->
      truthy (TransformResult.map result) = false ->
      json_parses (trace s) = []
      /\ done_calls (trace s) = [DoneOk (TransformResult.code result)
                                        (RawMap (TransformResult.map result))])
   /\ (forall text,
         text ∈ json_parses (trace s) ->
         text ≠ EmptyString
         /\ exists r result,
              EvTransform source r ∈ trace s
              /\ f source r = inr result
              /\ TransformResult.map result = Some text)).
Proof.
  split; cbv zeta.
  - destruct (loader_trace_cases ext this source c)
      as [[Hnone Hnojson] | (pre & opts & Htr & Hreq & Hjson & Hdone & _)].
    + split.
      * intros r result Hin. apply elem_of_transform_requests in Hin.
        rewrite Hnone in Hin. inversion Hin.
      * intros text Hin. rewrite Hnojson in Hin. inversion Hin.
    + exact (source_map_handling ext _ source pre _ _ Htr Hreq Hjson Hdone).
  - destruct (early_loader_trace_cases ext tsconfig this source c)
      as [[Hnone Hnojson] | (opts & Htr)].
    + split.
      * intros r result Hin. apply elem_of_transform_requests in Hin.
        rewrite Hnone in Hin. inversion Hin.
      * intros text Hin. rewrite Hnojson in Hin. inversion Hin.
    + exact (source_map_handling ext _ source [] _ _ Htr eq_refl eq_refl eq_refl).
Qed.

Lemma falsy_source_map_forwarded_unparsed_witness :
  (let s := ESBuildLoader Fixture.ext Fixture.custom_file "export {}" ∅ in
   json_parses (trace s) = []
   /\ done_calls (trace s) =
        [DoneOk "export function foo() { return 1; }" (RawMap (Some EmptyString))])
  /\
  (let s := SingleTsconfig.ESBuildLoader Fixture.ext None
              Fixture.custom_file "export {}" ∅ in
   json_parses (trace s) = []
   /\ done_calls (trace s) =
        [DoneOk "export function foo() { return 1; }" (RawMap (Some EmptyString))]).
Proof.
  destruct (falsy_source_map_forwarded_unparsed
              Fixture.ext None Fixture.custom_file "export {}" ∅)
    as [[Hnew _] [Hold _]].
  split; cbv zeta.
  - eapply (Hnew _ (TransformResult.mk
                      "export function foo() { return 1; }" (Some EmptyString)));
      [| reflexivity | reflexivity].
    apply list_elem_of_further, list_elem_of_further, list_elem_of_here.
  - eapply (Hold _ (TransformResult.mk
                      "export function foo() { return 1; }" (Some EmptyString)));
      [| reflexivity | reflexivity].
    apply list_elem_of_here.
Defined.

(** ** The cache across a build *)

Lemma successful_parses_app full tr1 tr2 :
  successful_parses full (tr1 ++ tr2)
  = (successful_parses full tr1 ++ successful_parses full tr2)%list.
Proof. apply List.filter_app. Qed.

Lemma successful_parses_cons full ev tr :
  successful_parses full (ev :: tr) =
    if is_parse_of full ev then ev :: successful_parses full tr
    else successful_parses full tr.
Proof. reflexivity. Qed.

Lemma cacheKey_inj full full' : cacheKey full = cacheKey full' -> full = full'.
Proof. unfold cacheKey. apply String.app_inj. Qed.

Lemma completion_events_no_parse ext full outcome :
  successful_parses full (completion_events ext outcome) = [].
Proof.
  unfold completion_events.
  destruct outcome as [e | [code [text |]]]; simpl; [easy | | easy].
  destruct (text =? EmptyString); [easy |].
  destruct (JSON_parse ext text); easy.
Qed.

Lemma mismatch_events_no_parse ext full tsconfig full' resourcePath :
  successful_parses full (mismatch_events ext tsconfig full' resourcePath) = []
  /\ specified_path_events (mismatch_events ext tsconfig full' resourcePath) = [].
Proof.
  unfold mismatch_events.
  destruct (createFilesMatcher ext tsconfig resourcePath); split; reflexivity.
Qed.

(** One resolution parses the tsconfig at [full] at most once, and only when
    the cache has no entry for it; an entry that is there stays as it is. *)
Lemma resolve_tsconfig_parses ext resourcePath tsconfigPath opts c full :
  keeps_loader_entries ext ->
  let st := resolve_tsconfig ext resourcePath tsconfigPath opts c in
  length (successful_parses full (trace st)) <= 1
  /\ (forall tsconfig,
        c !! cacheKey full = Some tsconfig ->
        successful_parses full (trace st) = []
        /\ cache st !! cacheKey full = Some tsconfig)
  /\ (successful_parses full (trace st) ≠ [] ->
      is_Some (cache st !! cacheKey full)).
Proof.
  intros [Hparse_frame Hget_frame]. unfold resolve_tsconfig.
  destruct (negb (has_key (TransformOptions.tsconfigRaw opts))
            && (negb (isDependency ext resourcePath)
                || test tsExtensionsPattern resourcePath)).
  2: { cbv zeta. cbn [trace cache mret loader_ret successful_parses List.filter length].
       split; [lia |]. split; [intros t Ht; split; [reflexivity | exact Ht] |].
       intros H; contradiction. }
  destruct (negb (isDependency ext resourcePath) && truthy tsconfigPath).
  - pose proof (apply_specified_cases ext resourcePath
                  (nullish tsconfigPath EmptyString) opts c) as Hcases.
    set (full' := path_resolve ext (nullish tsconfigPath EmptyString)) in *.
    destruct Hcases
      as [(tsconfig & c' & evs & Hres & ->) | (c' & e & Hmiss & Hparse & ->)];
      cbv zeta; cbn [trace cache].
    + destruct (mismatch_events_no_parse ext full tsconfig full' resourcePath)
        as [Hmis _].
      rewrite successful_parses_app, successful_parses_cons, Hmis.
      cbn [is_parse_of]. rewrite app_nil_r.
      destruct Hres as [t Hhit | c1 config Hmiss Hparse].
      * cbn [successful_parses List.filter is_parse_of length].
        split; [lia |]. split; [intros t' Ht'; split; [reflexivity | exact Ht'] |].
        intros H; contradiction.
      * rewrite !successful_parses_cons. cbn [is_parse_of successful_parses List.filter].
        destruct (String.eqb_spec full' full) as [-> | Hne].
        -- cbn [length]. split; [lia |]. split.
           ++ intros t' Ht'. rewrite Hmiss in Ht'. discriminate.
           ++ intros _. rewrite lookup_insert_eq. eauto.
        -- cbn [length]. split; [lia |]. split; [| intros H; contradiction].
           intros t' Ht'. split; [reflexivity |].
           rewrite lookup_insert_ne by (intros Heq; apply Hne, cacheKey_inj, Heq).
           specialize (Hparse_frame full' c full). rewrite Hparse in Hparse_frame.
           cbn [fst] in Hparse_frame. rewrite Hparse_frame. exact Ht'.
    + cbn [successful_parses List.filter is_parse_of length].
      split; [lia |]. split; [| intros H; contradiction].
      intros t' Ht'. split; [reflexivity |].
      specialize (Hparse_frame full' c full). rewrite Hparse in Hparse_frame.
      cbn [fst] in Hparse_frame. rewrite Hparse_frame. exact Ht'.
  - cbv zeta. rewrite apply_detected_run.
    specialize (Hget_frame resourcePath "tsconfig.json" c full).
    revert Hget_frame.
    generalize (getTsconfig ext resourcePath "tsconfig.json" c).1 as c'.
    generalize (getTsconfig ext resourcePath "tsconfig.json" c).2 as r.
    intros r c' Hframe. unfold detected_step.
    destruct r as [[e | v] | [t |]]; try destruct (isDependency ext resourcePath);
      cbn [trace cache successful_parses List.filter is_parse_of length];
      (split; [lia |]; split; [| intros H; contradiction]);
      intros t' Ht'; (split; [reflexivity |]); rewrite Hframe; exact Ht'.
Qed.

Lemma loader_parses ext this source c full :
  keeps_loader_entries ext ->
  let s := ESBuildLoader ext this source c in
  length (successful_parses full (trace s)) <= 1
  /\ (forall tsconfig,
        c !! cacheKey full = Some tsconfig ->
        successful_parses full (trace s) = []
        /\ cache s !! cacheKey full = Some tsconfig)
  /\ (successful_parses full (trace s) ≠ [] ->
      is_Some (cache s !! cacheKey full)).
Proof.
  intros Hkeeps s. subst s.
  destruct (invalid_implementation
              (LoaderOptions.implementation (read_options this))) eqn:Himpl.
  - rewrite (loader_rejects _ _ _ _ Himpl).
    cbn [trace cache successful_parses List.filter is_parse_of length].
    split; [lia |]. split; [intros t Ht; split; [reflexivity | exact Ht] |].
    intros H; contradiction.
  - rewrite (loader_runs _ _ _ _ Himpl). cbv zeta.
    pose proof (resolve_tsconfig_parses ext (LoaderContext.resourcePath this)
                  (LoaderOptions.tsconfig (read_options this))
                  (initial_transformOptions this (read_options this)) c full Hkeeps)
      as Hst.
    cbv zeta in Hst.
    destruct (resolve_tsconfig ext _ _ _ c) as [c1 tr1 [opts | | e]];
      cbn [trace completion cache] in *; try exact Hst.
    rewrite successful_parses_app, successful_parses_cons.
    cbn [is_parse_of]. rewrite completion_events_no_parse, app_nil_r.
    exact Hst.
Qed.

(** Across a build the tsconfig at [full] is parsed at most once, and not at
    all once the cache holds its record, which then stays the same. *)
Lemma build_process_parses ext jobs c full :
  keeps_loader_entries ext ->
  length (successful_parses full (build_process ext jobs c).2) <= 1
  /\ (forall tsconfig,
        c !! cacheKey full = Some tsconfig ->
        successful_parses full (build_process ext jobs c).2 = []
        /\ (build_process ext jobs c).1 !! cacheKey full = Some tsconfig).
Proof.
  intros Hkeeps. revert c.
  induction jobs as [| [this source] jobs IH]; intros c.
  - cbn. split; [lia |]. intros t Ht. split; [reflexivity | exact Ht].
  - cbn [build_process fst snd].
    destruct (loader_parses ext this source c full Hkeeps) as (Hone & Hkept & Hnew).
    cbv zeta in Hone, Hkept, Hnew.
    destruct (IH (cache (ESBuildLoader ext this source c))) as (IHone & IHkept).
    rewrite successful_parses_app, length_app.
    split.
    + destruct (successful_parses full (trace (ESBuildLoader ext this source c)))
        as [| ev evs] eqn:Hparsed.
      * cbn [length]. lia.
      * destruct Hnew as [t Ht]; [discriminate |].
        destruct (IHkept t Ht) as [-> _]. cbn [length] in *. lia.
    + intros t Ht. destruct (Hkept t Ht) as [-> Hstill].
      destruct (IHkept t Hstill) as [-> Hend].
      split; [reflexivity | exact Hend].
Qed.

Lemma parse_calls_app full tr1 tr2 :
  parse_calls full (tr1 ++ tr2) = (parse_calls full tr1 ++ parse_calls full tr2)%list.
Proof. apply List.filter_app. Qed.

Lemma parse_calls_cons full ev tr :
  parse_calls full (ev :: tr) =
    if is_parse_call full ev then ev :: parse_calls full tr
    else parse_calls full tr.
Proof. reflexivity. Qed.

Lemma completion_events_no_parse_call ext full outcome :
  parse_calls full (completion_events ext outcome) = [].
Proof.
  unfold completion_events.
  destruct outcome as [e | [code [text |]]]; simpl; [easy | | easy].
  destruct (text =? EmptyString); [easy |].
  destruct (JSON_parse ext text); easy.
Qed.

Lemma mismatch_events_no_parse_call ext full tsconfig full' resourcePath :
  parse_calls full (mismatch_events ext tsconfig full' resourcePath) = [].
Proof.
  unfold mismatch_events.
  destruct (createFilesMatcher ext tsconfig resourcePath); reflexivity.
Qed.

(** Once the cache holds the record of the tsconfig at [full], a resolution
    does not call [parseTsconfig] on that file. *)
Lemma resolve_tsconfig_cached ext resourcePath tsconfigPath opts c full tsconfig :
  c !! cacheKey full = Some tsconfig ->
  parse_calls full (trace (resolve_tsconfig ext resourcePath tsconfigPath opts c)) = [].
Proof.
  intros Hin. unfold resolve_tsconfig.
  destruct (negb (has_key (TransformOptions.tsconfigRaw opts))
            && (negb (isDependency ext resourcePath)
                || test tsExtensionsPattern resourcePath)); [| reflexivity].
  destruct (negb (isDependency ext resourcePath) && truthy tsconfigPath).
  - pose proof (apply_specified_cases ext resourcePath
                  (nullish tsconfigPath EmptyString) opts c) as Hcases.
    set (full' := path_resolve ext (nullish tsconfigPath EmptyString)) in *.
    destruct Hcases
      as [(t & c' & evs & Hres & ->) | (c' & e & Hmiss & Hparse & ->)];
      cbn [trace].
    + rewrite parse_calls_app, parse_calls_cons, mismatch_events_no_parse_call.
      cbn [is_parse_call]. rewrite app_nil_r.
      destruct Hres as [t Hhit | c1 config Hmiss Hparse]; [reflexivity |].
      rewrite !parse_calls_cons. cbn [is_parse_call parse_calls List.filter].
      destruct (String.eqb_spec full' full) as [Heq | Hne]; [| reflexivity].
      rewrite Heq in Hmiss. congruence.
    + rewrite !parse_calls_cons. cbn [is_parse_call parse_calls List.filter].
      destruct (String.eqb_spec full' full) as [Heq | Hne]; [| reflexivity].
      rewrite Heq in Hmiss. congruence.
  - rewrite apply_detected_run.
    generalize (getTsconfig ext resourcePath "tsconfig.json" c).1 as c'.
    generalize (getTsconfig ext resourcePath "tsconfig.json" c).2 as r.
    intros r c'. unfold detected_step.
    destruct r as [[e | v] | [t |]]; try destruct (isDependency ext resourcePath);
      reflexivity.
Qed.

Lemma loader_cached ext this source c full tsconfig :
  c !! cacheKey full = Some tsconfig ->
  parse_calls full (trace (ESBuildLoader ext this source c)) = [].
Proof.
  intros Hin.
  destruct (invalid_implementation
              (LoaderOptions.implementation (read_options this))) eqn:Himpl.
  - rewrite (loader_rejects _ _ _ _ Himpl). reflexivity.
  - rewrite (loader_runs _ _ _ _ Himpl). cbv zeta.
    pose proof (resolve_tsconfig_cached ext (LoaderContext.resourcePath this)
                  (LoaderOptions.tsconfig (read_options this))
                  (initial_transformOptions this (read_options this)) c full tsconfig Hin)
      as Hst.
    destruct (resolve_tsconfig ext _ _ _ c) as [c1 tr1 [opts | | e]];
      cbn [trace completion cache] in *; try exact Hst.
    rewrite parse_calls_app, parse_calls_cons.
    cbn [is_parse_call]. rewrite completion_events_no_parse_call, app_nil_r.
    exact Hst.
Qed.

(** Across a build, once the cache holds the record of the tsconfig at
    [full], [parseTsconfig] is not called on that file again. *)
Lemma build_process_cached ext jobs c full tsconfig :
  keeps_loader_entries ext ->
  c !! cacheKey full = Some tsconfig ->
  parse_calls full (build_process ext jobs c).2 = [].
Proof.
  intros Hkeeps. revert c.
  induction jobs as [| [this source] jobs IH]; intros c Hin; [reflexivity |].
  cbn [build_process fst snd].
  destruct (loader_parses ext this source c full Hkeeps) as (_ & Hkept & _).
  cbv zeta in Hkept. destruct (Hkept tsconfig Hin) as [_ Hstill].
  rewrite parse_calls_app, (loader_cached _ _ _ _ _ _ Hin), (IH _ Hstill).
  reflexivity.
Qed.

(** A lookup that resolves leaves the record in the cache. *)
Lemma resolves_cached_after ext c full tsconfig c' evs :
  resolves ext c full tsconfig c' evs -> c' !! cacheKey full = Some tsconfig.
Proof.
  intros [t Hhit | c1 config Hmiss Hparse]; [exact Hhit | apply lookup_insert_eq].
Qed.

(** A file processed through the specified-path branch, once its tsconfig
    is resolved. *)
Lemma loader_specified_run ext this source c tsconfigPath tsconfig c' evs :
  specifies_tsconfig ext this tsconfigPath ->
  resolves ext c (path_resolve ext tsconfigPath) tsconfig c' evs ->
  let s := ESBuildLoader ext this source c in
  cache s = c'
  /\ specified_path_events (trace s) = specified_path_events evs
  /\ TransformOptions.tsconfigRaw <$> transform_requests (trace s)
     = [Value (TsConfigResult.config tsconfig)].
Proof.
  intros (Himpl & Hdep & Hpath & Hne & Hkey) Hres s. subst s.
  rewrite (loader_runs _ _ _ _ Himpl). cbv zeta. rewrite Hpath.
  rewrite resolve_specified by first [exact Hkey | exact Hdep | exact Hne].
  rewrite (apply_specified_resolved _ _ _ _ _ _ _ _ Hres).
  cbn [completion trace cache].
  set (r := enable_dynamic_import _).
  set (f := chosen_transform ext _).
  destruct (completion_events_quiet ext (f source r)) as (Hreq & _ & _ & Hspec).
  destruct (resolves_quiet _ _ _ _ _ _ Hres) as (Hevs & _).
  destruct (mismatch_events_quiet ext tsconfig (path_resolve ext tsconfigPath)
              (LoaderContext.resourcePath this)) as (Hmis & _).
  destruct (mismatch_events_no_parse ext EmptyString tsconfig
              (path_resolve ext tsconfigPath) (LoaderContext.resourcePath this))
    as (_ & Hmis_spec).
  split; [reflexivity |]. split.
  - repeat (rewrite ?specified_path_events_app, ?specified_path_events_cons;
            cbn [is_specified_path_event]).
    rewrite Hmis_spec, Hspec, !app_nil_r. reflexivity.
  - read_trace. rewrite Hevs, Hmis, Hreq. reflexivity.
Qed.

(** C6. Provided get-tsconfig leaves the loader's cache entries alone: in a
    build (any sequence of files, from any state of the cache) the tsconfig
    at a given resolved path is parsed successfully at most once; and after
    a file has been processed with a [tsconfig] option whose tsconfig
    resolved, [parseTsconfig] is not called on that path again, whatever
    files are processed in between, and the next file with a [tsconfig]
    option of the same resolved path does a cache lookup and nothing else of
    the specified-path branch (no parse, no cache update), and its request
    carries the content of the very record the first one got, which is still
    the one in the cache.  Only a lookup that resolved is remembered: a
    tsconfig that does not parse is parsed again for every file that names
    it. *)
Theorem tsconfig_parsed_once_then_cached ext :
  keeps_loader_entries ext ->
  (forall jobs c full,
     length (successful_parses full (build_process ext jobs c).2) <= 1)
  /\
  (forall c this1 source1 path1 between this2 source2 path2 tsconfig c1 evs,
     specifies_tsconfig ext this1 path1 ->
     specifies_tsconfig ext this2 path2 ->
     path_resolve ext path1 = path_resolve ext path2 ->
     resolves ext c (path_resolve ext path1) tsconfig c1 evs ->
     let full := path_resolve ext path1 in
     let s1 := ESBuildLoader ext this1 source1 c in
     let mid := build_process ext between (cache s1) in
     let s2 := ESBuildLoader ext this2 source2 mid.1 in
     TransformOptions.tsconfigRaw <$> transform_requests (trace s1)
       = [Value (TsConfigResult.config tsconfig)]
     /\ successful_parses full mid.2 = []
     /\ parse_calls full mid.2 = []
     /\ mid.1 !! cacheKey full = Some tsconfig
     /\ specified_path_events (trace s2) = [EvCacheGet (cacheKey full)]
     /\ TransformOptions.tsconfigRaw <$> transform_requests (trace s2)
          = [Value (TsConfigResult.config tsconfig)]
     /\ cache s2 !! cacheKey full = Some tsconfig).
Proof.
  intros Hkeeps. split.
  - intros jobs c full. apply build_process_parses. exact Hkeeps.
  - intros c this1 source1 path1 between this2 source2 path2 tsconfig c1 evs
      Hfirst Hsecond Hsame Hres full s1 mid s2.
    destruct (loader_specified_run ext this1 source1 c path1 tsconfig c1 evs
                Hfirst Hres) as (Hc1 & _ & Hreq1).
    fold s1 in Hc1, Hreq1.
    pose proof (resolves_cached_after _ _ _ _ _ _ Hres) as Hin1.
    fold full in Hin1. rewrite <- Hc1 in Hin1.
    destruct (build_process_parses ext between (cache s1) full Hkeeps) as (_ & Hmid).
    destruct (Hmid tsconfig Hin1) as (Hnoparse & Hin2). fold mid in Hnoparse, Hin2.
    assert (Hres2 : resolves ext mid.1 (path_resolve ext path2) tsconfig mid.1
                      [EvCacheGet (cacheKey (path_resolve ext path2))]).
    { constructor. rewrite <- Hsame. exact Hin2. }
    destruct (loader_specified_run ext this2 source2 mid.1 path2 tsconfig mid.1 _
                Hsecond Hres2) as (Hc2 & Hspec2 & Hreq2).
    fold s2 in Hc2, Hspec2, Hreq2.
    pose proof (build_process_cached ext between (cache s1) full tsconfig Hkeeps Hin1)
      as Hnocall.
    fold mid in Hnocall.
    repeat split; try assumption.
    + rewrite Hspec2. unfold full. rewrite Hsame. reflexivity.
    + rewrite Hc2. exact Hin2.
Qed.

Lemma fixture_keeps_loader_entries : keeps_loader_entries Fixture.ext.
Proof. split; intros; reflexivity. Qed.

Lemma tsconfig_parsed_once_then_cached_witness :
  keeps_loader_entries Fixture.ext
  /\ length (successful_parses "/project/tsconfig.build.json"
               (build_process Fixture.ext
                  ((Fixture.excluded_file_with_tsconfig, "let a")
                     :: Fixture.other_jobs
                     ++ [(Fixture.included_file_with_tsconfig, "let b")]) ∅).2) <= 1
  /\ (let s1 := ESBuildLoader Fixture.ext Fixture.excluded_file_with_tsconfig "let a" ∅ in
      let mid := build_process Fixture.ext Fixture.other_jobs (cache s1) in
      let s2 := ESBuildLoader Fixture.ext Fixture.included_file_with_tsconfig
                  "let b" mid.1 in
      TransformOptions.tsconfigRaw <$> transform_requests (trace s1)
        = [Value Fixture.project_tsconfig]
      /\ specified_path_events (trace s2)
         = [EvCacheGet "esbuild-loader:/project/tsconfig.build.json"]
      /\ TransformOptions.tsconfigRaw <$> transform_requests (trace s2)
         = [Value Fixture.project_tsconfig]).
Proof.
  destruct (tsconfig_parsed_once_then_cached Fixture.ext fixture_keeps_loader_entries)
    as [Honce Hcached].
  split; [exact fixture_keeps_loader_entries |].
  split; [apply Honce |].
  assert (Hne : "tsconfig.build.json" ≠ EmptyString) by discriminate.
  assert (Hspec1 : specifies_tsconfig Fixture.ext Fixture.excluded_file_with_tsconfig
                     "tsconfig.build.json") by (repeat split; exact Hne).
  assert (Hspec2 : specifies_tsconfig Fixture.ext Fixture.included_file_with_tsconfig
                     "tsconfig.build.json") by (repeat split; exact Hne).
  destruct (Hcached ∅ Fixture.excluded_file_with_tsconfig "let a" "tsconfig.build.json"
              Fixture.other_jobs
              Fixture.included_file_with_tsconfig "let b" "tsconfig.build.json"
              _ _ _ Hspec1 Hspec2 eq_refl
              (resolves_parsed Fixture.ext ∅ "/project/tsconfig.build.json"
                 ∅ Fixture.project_tsconfig (lookup_empty _) eq_refl))
    as (Hreq1 & _ & _ & _ & Hlook & Hreq2 & _).
  cbv zeta. split; [exact Hreq1 |]. split; [exact Hlook | exact Hreq2].
Defined.

(** A tsconfig that does not parse is parsed once per file: two project
    files name the same [broken.json]; [parseTsconfig] is called on it for
    each of them, and the cache holds no record of it afterwards. *)
Lemma unparsable_tsconfig_is_parsed_for_every_file :
  let jobs := [(Samples.broken_tsconfig_file, "let a");
               (Samples.second_broken_tsconfig_file, "let b")] in
  let run := build_process Fixture.ext jobs ∅ in
  keeps_loader_entries Fixture.ext
  /\ specifies_tsconfig Fixture.ext Samples.broken_tsconfig_file "broken.json"
  /\ specifies_tsconfig Fixture.ext Samples.second_broken_tsconfig_file "broken.json"
  /\ path_resolve Fixture.ext "broken.json" = "/project/broken.json"
  /\ parse_calls "/project/broken.json" run.2
     = [EvParseTsconfig "/project/broken.json" (inl Fixture.syntax_error);
        EvParseTsconfig "/project/broken.json" (inl Fixture.syntax_error)]
  /\ length (parse_calls "/project/broken.json" run.2) = 2
  /\ run.1 !! cacheKey "/project/broken.json" = None.
Proof.
  assert (Hne : "broken.json" ≠ EmptyString) by discriminate.
  cbv zeta.
  split; [exact fixture_keeps_loader_entries |].
  split; [repeat split; exact Hne |].
  split; [repeat split; exact Hne |].
  split; [reflexivity |].
  split; [reflexivity |].
  split; [reflexivity |].
  apply lookup_empty.
Qed.

(** ** Further properties of the loader *)

(** *** The two tests on the file path *)

Lemma tsExtensionsPattern_matches s :
  negb (Nat.eqb (length (matches tsExtensionsPattern s)) 0)
  = existsb (String.eqb s) ts_endings.
Proof.
  destruct s as [| a1 [| a2 [| a3 [| a4 [| a5 rest]]]]]; simpl;
    split_chars; try reflexivity.
Qed.

Lemma test_unfold r s :
  test r s =
    negb (Nat.eqb (length (matches r s)) 0)
    || match s with EmptyString => false | String _ rest => test r rest end.
Proof. destruct s; reflexivity. Qed.

Lemma existsb_eqb_elem s l : existsb (String.eqb s) l = true <-> s ∈ l.
Proof.
  induction l as [| x l IH]; simpl.
  - split; [discriminate | intros H; inversion H].
  - rewrite orb_true_iff, IH, elem_of_cons.
    destruct (String.eqb_spec s x); split; intros [H | H]; auto; try discriminate;
      try contradiction.
Qed.

(** X1. [tsExtensionsPattern] accepts a path exactly when the path ends in
    one of .ts, .cts, .mts, .tsx and .jsx (so it accepts .d.ts and .jsx
    files and rejects .js, .mjs and .cjs ones). *)
Theorem tsExtensionsPattern_accepts_exactly_five_endings path :
  test tsExtensionsPattern path = true <->
  exists stem ending,
    path = stem +:+ ending
    /\ ending ∈ [".ts"; ".cts"; ".mts"; ".tsx"; ".jsx"].
Proof.
  split.
  - induction path as [| a rest IH]; rewrite test_unfold, tsExtensionsPattern_matches.
    + simpl. discriminate.
    + intros H. apply orb_true_iff in H as [H | H].
      * apply existsb_eqb_elem in H. exists EmptyString, (String a rest). split; [reflexivity | exact H].
      * destruct (IH H) as (stem & ending & -> & Hin).
        exists (String a stem), ending. split; [reflexivity | exact Hin].
  - intros (stem & ending & -> & Hin).
    induction stem as [| a stem IH].
    + rewrite test_unfold, tsExtensionsPattern_matches.
      apply orb_true_iff. left. apply existsb_eqb_elem. exact Hin.
    + change (String a stem +:+ ending) with (String a (stem +:+ ending)).
      rewrite test_unfold, IH. apply orb_true_r.
Qed.

Lemma prefix_spec needle haystack :
  String.prefix needle haystack = true <-> exists post, haystack = needle +:+ post.
Proof.
  revert haystack. induction needle as [| a needle IH]; intros haystack.
  - split; [intros _; exists haystack; reflexivity | intros _; destruct haystack; reflexivity].
  - destruct haystack as [| b haystack]; simpl.
    + split; [discriminate | intros [post H]; discriminate H].
    + destruct (ascii_dec a b) as [-> | Hne].
      * rewrite IH. split; intros [post H]; exists post;
          [now rewrite H | simpl in H; now injection H].
      * split; [discriminate |].
        intros [post H]. simpl in H. injection H as H1 H2. symmetry in H1. contradiction.
Qed.

Lemma includes_spec haystack needle :
  includes haystack needle = true <->
  exists pre post, haystack = pre +:+ needle +:+ post.
Proof.
  induction haystack as [| a rest IH].
  - change (includes EmptyString needle) with (String.prefix needle EmptyString || false).
    rewrite orb_false_r, prefix_spec. split.
    + intros [post H]. exists EmptyString, post. exact H.
    + intros (pre & post & H). destruct pre; [exists post; exact H |]. discriminate H.
  - change (includes (String a rest) needle)
      with (String.prefix needle (String a rest) || includes rest needle).
    rewrite orb_true_iff, prefix_spec, IH. split.
    + intros [[post H] | (pre & post & H)].
      * exists EmptyString, post. exact H.
      * exists (String a pre), post. simpl. now rewrite H.
    + intros (pre & post & H). destruct pre as [| b pre].
      * left. exists post. exact H.
      * right. simpl in H. injection H as _ H. exists pre, post. exact H.
Qed.

Lemma append_assoc (a b c : string) : (a +:+ b) +:+ c = a +:+ (b +:+ c).
Proof.
  induction a as [| x a IH]; [reflexivity |].
  change (String x ((a +:+ b) +:+ c) = String x (a +:+ b +:+ c)).
  f_equal. exact IH.
Qed.

(** X2. A file is treated as a dependency exactly when its path contains
    node_modules with a path separator right before and right after it,
    that is, when the path splits into some text, the separator,
    node_modules, the separator and some more text. *)
Theorem dependency_iff_node_modules_segment ext resourcePath :
  isDependency ext resourcePath = true <->
  exists before after,
    resourcePath = before +:+ path_sep ext +:+ "node_modules" +:+ path_sep ext +:+ after.
Proof.
  unfold isDependency. rewrite includes_spec.
  split; intros (pre & post & H); exists pre, post; rewrite H.
  - rewrite !append_assoc. reflexivity.
  - rewrite !append_assoc. reflexivity.
Qed.

(** *** How a run ends *)

Lemma set_tsconfigRaw_same opts :
  set_tsconfigRaw (TransformOptions.tsconfigRaw opts) opts = opts.
Proof. destruct opts; reflexivity. Qed.

(** The resolution, by the way it ends: the block ends normally with the
    request changed in [tsconfigRaw] at most; it returns after reporting a
    detection error of a project file; or it throws what [parseTsconfig]
    threw on a cache miss of the specified path. *)
Lemma resolve_tsconfig_outcomes ext resourcePath tsconfigPath opts c :
  let st := resolve_tsconfig ext resourcePath tsconfigPath opts c in
  length (warnings (trace st)) <= 1
  /\ match completion st with
     | Normal opts' =>
         done_calls (trace st) = []
         /\ exists raw, opts' = set_tsconfigRaw raw opts
     | Returned =>
         warnings (trace st) = []
         /\ isDependency ext resourcePath = false
         /\ exists e,
              (getTsconfig ext resourcePath "tsconfig.json" c).2 = inl (ThrownError e)
              /\ trace st
                 = [EvGetTsconfig resourcePath "tsconfig.json" (inl (ThrownError e));
                    EvDone (DoneError (ThrownError
                      (Error (tsconfig_error_message (message e)))))]
     | Threw e =>
         warnings (trace st) = []
         /\ done_calls (trace st) = []
         /\ has_key (TransformOptions.tsconfigRaw opts) = false
         /\ isDependency ext resourcePath = false
         /\ exists p,
              tsconfigPath = Some p /\ p ≠ EmptyString
              /\ c !! cacheKey (path_resolve ext p) = None
              /\ parseTsconfig ext (path_resolve ext p) c = (cache st, inl e)
     end.
Proof.
  unfold resolve_tsconfig.
  destruct (has_key (TransformOptions.tsconfigRaw opts)) eqn:Hkey; cbn [negb andb].
  { cbv zeta. cbn. split; [lia |]. split; [reflexivity |].
    eexists. symmetry. apply set_tsconfigRaw_same. }
  destruct (isDependency ext resourcePath) eqn:Hdep; cbn [negb orb andb].
  - destruct (test tsExtensionsPattern resourcePath).
    2: { cbv zeta. cbn. split; [lia |]. split; [reflexivity |].
         eexists. symmetry. apply set_tsconfigRaw_same. }
    cbv zeta. rewrite apply_detected_run. unfold detected_step. rewrite Hdep.
    destruct (getTsconfig ext resourcePath "tsconfig.json" c) as [c' [[e | v] | [t |]]];
      cbn; (split; [lia |]); (split; [reflexivity |]);
      eexists; first [reflexivity | symmetry; apply set_tsconfigRaw_same].
  - destruct tsconfigPath as [p |]; cbn [truthy].
    2: { cbv zeta. rewrite apply_detected_run. unfold detected_step. rewrite Hdep.
         destruct (getTsconfig ext resourcePath "tsconfig.json" c)
           as [c' [[e | v] | [t |]]]; cbn.
         - split; [lia |]. split; [reflexivity |]. split; [reflexivity |]. eauto.
         - split; [lia |]. split; [reflexivity |]. eexists. symmetry.
           apply set_tsconfigRaw_same.
         - split; [lia |]. split; [reflexivity |]. eexists. reflexivity.
         - split; [lia |]. split; [reflexivity |]. eexists. symmetry.
           apply set_tsconfigRaw_same. }
    destruct (String.eqb_spec p EmptyString) as [-> | Hne]; cbn [negb].
    { cbv zeta. rewrite apply_detected_run. unfold detected_step. rewrite Hdep.
      destruct (getTsconfig ext resourcePath "tsconfig.json" c)
        as [c' [[e | v] | [t |]]]; cbn.
      - split; [lia |]. split; [reflexivity |]. split; [reflexivity |]. eauto.
      - split; [lia |]. split; [reflexivity |]. eexists. symmetry.
        apply set_tsconfigRaw_same.
      - split; [lia |]. split; [reflexivity |]. eexists. reflexivity.
      - split; [lia |]. split; [reflexivity |]. eexists. symmetry.
        apply set_tsconfigRaw_same. }
    cbn [nullish].
    destruct (apply_specified_cases ext resourcePath p opts c)
      as [(tsconfig & c' & evs & Hres & ->) | (c' & e & Hmiss & Hparse & ->)];
      cbv zeta; cbn [trace completion cache].
    + destruct (resolves_quiet _ _ _ _ _ _ Hres) as (_ & _ & Hdone & Hwarn).
      destruct (mismatch_events_quiet ext tsconfig (path_resolve ext p) resourcePath)
        as (_ & _ & Hdone').
      read_trace. rewrite Hdone, Hdone', Hwarn. cbn [app].
      split.
      * unfold mismatch_events. destruct (createFilesMatcher ext tsconfig resourcePath);
          cbn; lia.
      * split; [reflexivity |]. eexists. reflexivity.
    + cbn. split; [lia |]. repeat split. exists p. repeat split; assumption.
Qed.

Lemma completion_events_end ext outcome :
  exists pre a,
    completion_events ext outcome = (pre ++ [EvDone a])%list
    /\ done_calls pre = [] /\ transform_requests pre = [] /\ warnings pre = [].
Proof.
  unfold completion_events.
  destruct outcome as [e | [code [text |]]]; cbn.
  - exists [], (DoneError e). repeat split.
  - destruct (text =? EmptyString).
    + eexists [], _. repeat split.
    + destruct (JSON_parse ext text); eexists [EvJsonParse text], _; repeat split.
  - eexists [], _. repeat split.
Qed.

Lemma loader_request_shape ext this source c r :
  r ∈ transform_requests (trace (ESBuildLoader ext this source c)) ->
  exists raw,
    r = enable_dynamic_import
          (set_tsconfigRaw raw (initial_transformOptions this (read_options this))).
Proof.
  destruct (invalid_implementation
              (LoaderOptions.implementation (read_options this))) eqn:Himpl.
  { rewrite (loader_rejects _ _ _ _ Himpl). intros H; inversion H. }
  rewrite (loader_runs _ _ _ _ Himpl). cbv zeta.
  destruct (resolve_tsconfig_inv ext (LoaderContext.resourcePath this)
              (LoaderOptions.tsconfig (read_options this))
              (initial_transformOptions this (read_options this)) c)
    as (Hreq & _ & _).
  destruct (resolve_tsconfig_outcomes ext (LoaderContext.resourcePath this)
              (LoaderOptions.tsconfig (read_options this))
              (initial_transformOptions this (read_options this)) c)
    as (_ & Hout).
  cbv zeta in Hreq, Hout.
  destruct (resolve_tsconfig ext _ _ _ c) as [c1 tr1 [opts | | e]];
    cbn [trace completion cache] in *;
    try (rewrite Hreq; intros H; inversion H; fail).
  destruct Hout as (_ & raw & ->).
  read_trace.
  destruct (completion_events_quiet ext
              (chosen_transform ext (LoaderOptions.implementation (read_options this))
                 source
                 (enable_dynamic_import
                    (set_tsconfigRaw raw
                       (initial_transformOptions this (read_options this))))))
    as (-> & _).
  rewrite Hreq. cbn [app]. intros H. apply list_elem_of_singleton in H. eauto.
Qed.

Lemma quiet_trace_has_no_transform tr :
  transform_requests tr = [] ->
  forall pre a post, tr = (pre ++ EvDone a :: post)%list -> transform_requests post = [].
Proof.
  intros Hreq pre a post ->. revert Hreq. read_trace.
  intros H. apply app_eq_nil in H. exact (proj2 H).
Qed.

(** In a trace whose calls of the transform all come before its calls of
    [done], nothing follows a call of [done] but what is no call of the
    transform. *)
Lemma no_transform_after_done before after :
  done_calls before = [] -> transform_requests after = [] ->
  forall pre a post,
    (before ++ after)%list = (pre ++ EvDone a :: post)%list ->
    transform_requests post = [].
Proof.
  intros Hdone Hreq pre a post Heq.
  apply app_eq_app in Heq.
  destruct Heq as [l [[Hbefore Hpost] | [Hpre Hafter]]].
  - destruct l as [| ev l].
    + cbn [app] in Hpost. rewrite <- Hpost in Hreq. revert Hreq. read_trace. tauto.
    + cbn [app] in Hpost. injection Hpost as <- _.
      rewrite Hbefore in Hdone. revert Hdone. read_trace.
      intros H. apply app_eq_nil in H. destruct H as [_ H]. discriminate H.
  - rewrite Hafter in Hreq. revert Hreq. read_trace.
    intros H. apply app_eq_nil in H. exact (proj2 H).
Qed.

(** X4. In either variant the transform is called at most once, no call of
    the transform follows a call of [done], and a run whose promise is
    fulfilled has ended on a call of [done]. *)
Theorem transform_runs_at_most_once_and_never_after_done ext tsconfig this source c :
  (let s := ESBuildLoader ext this source c in
   length (transform_requests (trace s)) <= 1
   /\ (forall pre a post,
         trace s = (pre ++ EvDone a :: post)%list -> transform_requests post = [])
   /\ (completion s = Normal tt \/ completion s = Returned ->
       exists pre a, trace s = (pre ++ [EvDone a])%list))
  /\
  (let s := SingleTsconfig.ESBuildLoader ext tsconfig this source c in
   length (transform_requests (trace s)) <= 1
   /\ (forall pre a post,
         trace s = (pre ++ EvDone a :: post)%list -> transform_requests post = [])
   /\ (completion s = Normal tt \/ completion s = Returned ->
       exists pre a, trace s = (pre ++ [EvDone a])%list)).
Proof.
  split; cbv zeta.
  - destruct (invalid_implementation
                (LoaderOptions.implementation (read_options this))) eqn:Himpl.
    { rewrite (loader_rejects _ _ _ _ Himpl). cbn [completion trace].
      split; [cbn; lia |].
      split; [apply quiet_trace_has_no_transform; reflexivity |].
      intros _. eexists [], _. reflexivity. }
    rewrite (loader_runs _ _ _ _ Himpl). cbv zeta.
    destruct (resolve_tsconfig_inv ext (LoaderContext.resourcePath this)
                (LoaderOptions.tsconfig (read_options this))
                (initial_transformOptions this (read_options this)) c)
      as (Hreq & _ & _).
    destruct (resolve_tsconfig_outcomes ext (LoaderContext.resourcePath this)
                (LoaderOptions.tsconfig (read_options this))
                (initial_transformOptions this (read_options this)) c)
      as (_ & Hout).
    cbv zeta in Hreq, Hout.
    destruct (resolve_tsconfig ext _ _ _ c) as [c1 tr1 [opts | | e]];
      cbn [trace completion cache] in *.
    + destruct Hout as (Hdone & _).
      set (r := enable_dynamic_import opts).
      set (f := chosen_transform ext _).
      destruct (completion_events_end ext (f source r))
        as (pre & a & -> & Hpre_done & Hpre_req & _).
      split; [read_trace; rewrite Hreq, Hpre_req; cbn; lia |].
      split.
      * intros pre' a' post Heq.
        apply (no_transform_after_done (tr1 ++ EvTransform source r :: pre) [EvDone a])
          with (pre := pre') (a := a'); [| reflexivity |].
        -- read_trace. rewrite Hdone, Hpre_done. reflexivity.
        -- rewrite <- Heq, <- app_assoc. reflexivity.
      * intros _. exists (tr1 ++ EvTransform source r :: pre)%list, a.
        rewrite <- app_assoc. reflexivity.
    + destruct Hout as (_ & _ & e & _ & ->).
      split; [cbn; lia |].
      split; [apply quiet_trace_has_no_transform; reflexivity |].
      intros _. eexists [_], _. reflexivity.
    + split; [rewrite Hreq; cbn; lia |].
      split; [apply quiet_trace_has_no_transform; exact Hreq |].
      intros [H | H]; discriminate H.
  - destruct (invalid_implementation
                (LoaderOptions.implementation (getOptions this))) eqn:Himpl.
    { rewrite (early_loader_rejects _ _ _ _ _ Himpl). cbn [completion trace].
      split; [cbn; lia |].
      split; [apply quiet_trace_has_no_transform; reflexivity |].
      intros _. eexists [], _. reflexivity. }
    rewrite (early_loader_runs _ _ _ _ _ Himpl). cbv zeta. cbn [completion trace].
    match goal with |- context [EvTransform source ?o] => set (r := o) end.
    set (f := chosen_transform ext _).
    destruct (completion_events_end ext (f source r))
      as (pre & a & -> & Hpre_done & Hpre_req & _).
    split; [read_trace; rewrite Hpre_req; cbn; lia |].
    split.
    + intros pre' a' post Heq.
      apply (no_transform_after_done (EvTransform source r :: pre) [EvDone a])
        with (pre := pre') (a := a'); [| reflexivity |].
      * read_trace. exact Hpre_done.
      * rewrite <- Heq. reflexivity.
    + intros _. exists (EvTransform source r :: pre), a. reflexivity.
Qed.

Lemma rejection_inv ext this source c e :
  let options := read_options this in
  let s := ESBuildLoader ext this source c in
  completion s = Threw e ->
  invalid_implementation (LoaderOptions.implementation options) = false
  /\ has_key (LoaderOptions.tsconfigRaw options) = false
  /\ isDependency ext (LoaderContext.resourcePath this) = false
  /\ exists tsconfigPath,
       LoaderOptions.tsconfig options = Some tsconfigPath
       /\ tsconfigPath ≠ EmptyString
       /\ c !! cacheKey (path_resolve ext tsconfigPath) = None
       /\ parseTsconfig ext (path_resolve ext tsconfigPath) c = (cache s, inl e).
Proof.
  intros options s. subst s options.
  destruct (invalid_implementation
              (LoaderOptions.implementation (read_options this))) eqn:Himpl.
  { rewrite (loader_rejects _ _ _ _ Himpl). discriminate. }
  rewrite (loader_runs _ _ _ _ Himpl). cbv zeta.
  destruct (resolve_tsconfig_outcomes ext (LoaderContext.resourcePath this)
              (LoaderOptions.tsconfig (read_options this))
              (initial_transformOptions this (read_options this)) c)
    as (_ & Hout).
  cbv zeta in Hout.
  destruct (resolve_tsconfig ext _ _ _ c) as [c1 tr1 [opts | | e']];
    cbn [trace completion cache] in *; try discriminate.
  intros [= ->]. destruct Hout as (_ & _ & Hkey & Hdep & p & Hp & Hne & Hmiss & Hparse).
  repeat split; try assumption. exists p. repeat split; assumption.
Qed.

(** X5. When a project file names a tsconfig that is not in the cache and
    [parseTsconfig] throws on it, the loader's promise rejects with what was
    thrown: the loader has looked the path up and called [parseTsconfig],
    and nothing else; it has called neither the transform nor [done], and it
    leaves the cache as [parseTsconfig] left it. *)
Theorem unparsable_specified_tsconfig_rejects_the_promise
    ext this source c tsconfigPath c' e :
  specifies_tsconfig ext this tsconfigPath ->
  c !! cacheKey (path_resolve ext tsconfigPath) = None ->
  parseTsconfig ext (path_resolve ext tsconfigPath) c = (c', inl e) ->
  let s := ESBuildLoader ext this source c in
  completion s = Threw e
  /\ cache s = c'
  /\ trace s = [EvCacheGet (cacheKey (path_resolve ext tsconfigPath));
                EvParseTsconfig (path_resolve ext tsconfigPath) (inl e)].
Proof.
  intros (Himpl & Hdep & Hp & Hne & Hkey) Hmiss Hparse s. subst s.
  rewrite (loader_runs _ _ _ _ Himpl). cbv zeta. rewrite Hp.
  rewrite resolve_specified by first [exact Hkey | exact Hdep | exact Hne].
  rewrite (apply_specified_failed _ _ _ _ _ _ _ Hmiss Hparse).
  repeat split.
Qed.

Lemma unparsable_specified_tsconfig_rejects_the_promise_witness :
  specifies_tsconfig Fixture.ext Samples.broken_tsconfig_file "broken.json"
  /\ (let s := ESBuildLoader Fixture.ext Samples.broken_tsconfig_file "let x" ∅ in
      completion s = Threw Fixture.syntax_error
      /\ cache s = ∅
      /\ trace s = [EvCacheGet "esbuild-loader:/project/broken.json";
                    EvParseTsconfig "/project/broken.json" (inl Fixture.syntax_error)]).
Proof.
  assert (Hne : "broken.json" ≠ EmptyString) by discriminate.
  assert (Hspec : specifies_tsconfig Fixture.ext Samples.broken_tsconfig_file
                    "broken.json") by (repeat split; exact Hne).
  split; [exact Hspec |].
  exact (unparsable_specified_tsconfig_rejects_the_promise
           Fixture.ext Samples.broken_tsconfig_file "let x" ∅ "broken.json" ∅
           Fixture.syntax_error Hspec (lookup_empty _) eq_refl).
Defined.



(** *** After the transform *)

Lemma closing_block_outcome ext (f : Transform) source pre opts tr :
  tr = (pre ++ EvTransform source opts :: completion_events ext (f source opts))%list ->
  transform_requests pre = [] -> json_parses pre = [] -> done_calls pre = [] ->
  (forall r e,
     EvTransform source r ∈ tr -> f source r = inl e ->
     done_calls tr = [DoneError e] /\ json_parses tr = [])
  /\ (forall r result text,
        EvTransform source r ∈ tr -> f source r = inr result ->
        TransformResult.map result = Some text -> text ≠ EmptyString ->
        json_parses tr = [text]
        /\ done_calls tr =
             [match JSON_parse ext text with
              | inl e => DoneError e
              | inr parsed => DoneOk (TransformResult.code result) (ParsedMap parsed)
              end]).
Proof.
  intros -> Hreq Hjson Hdone.
  destruct (completion_events_quiet ext (f source opts)) as (Hquiet & _).
  assert (Hsame : forall r, EvTransform source r
                  ∈ (pre ++ EvTransform source opts
                       :: completion_events ext (f source opts))%list -> r = opts).
  { intros r Hin. apply elem_of_transform_requests in Hin. revert Hin.
    read_trace. rewrite Hreq, Hquiet. cbn [app].
    intros Hin. apply list_elem_of_singleton in Hin. exact Hin. }
  split.
  - intros r e Hin Hf. apply Hsame in Hin. subst r.
    read_trace. rewrite Hjson, Hdone, Hf. split; reflexivity.
  - intros r result text Hin Hf Hmap Hne. apply Hsame in Hin. subst r.
    read_trace. rewrite Hjson, Hdone, Hf. unfold completion_events. rewrite Hmap.
    destruct (String.eqb_spec text EmptyString); [contradiction |].
    destruct (JSON_parse ext text); split; reflexivity.
Qed.

(** X6. In either variant, when the transform the loader called rejects
    with [e], [done] is called once, with [e] itself, and [JSON.parse] is not
    called. *)
Theorem transform_failure_reaches_done_unchanged ext tsconfig this source c :
  (let f := chosen_transform ext (LoaderOptions.implementation (read_options this)) in
   let s := ESBuildLoader ext this source c in
   forall r e,
     EvTransform source r ∈ trace s -> f source r = inl e ->
     done_calls (trace s) = [DoneError e] /\ json_parses (trace s) = [])
  /\
  (let f := chosen_transform ext (LoaderOptions.implementation (getOptions this)) in
   let s := SingleTsconfig.ESBuildLoader ext tsconfig this source c in
   forall r e,
     EvTransform source r ∈ trace s -> f source r = inl e ->
     done_calls (trace s) = [DoneError e] /\ json_parses (trace s) = []).
Proof.
  split; cbv zeta.
  - destruct (loader_trace_cases ext this source c)
      as [[Hnone _] | (pre & opts & Htr & Hreq & Hjson & Hdone & _)].
    + intros r e Hin. apply elem_of_transform_requests in Hin.
      rewrite Hnone in Hin. inversion Hin.
    + exact (proj1 (closing_block_outcome ext _ source pre _ _ Htr Hreq Hjson Hdone)).
  - destruct (early_loader_trace_cases ext tsconfig this source c)
      as [[Hnone _] | (opts & Htr)].
    + intros r e Hin. apply elem_of_transform_requests in Hin.
      rewrite Hnone in Hin. inversion Hin.
    + exact (proj1 (closing_block_outcome ext _ source [] _ _ Htr eq_refl eq_refl eq_refl)).
Qed.

Lemma transform_failure_reaches_done_unchanged_witness :
  done_calls (trace (ESBuildLoader Fixture.ext Samples.failing_file "let x" ∅))
  = [DoneError Samples.rejection]
  /\ done_calls (trace (SingleTsconfig.ESBuildLoader Fixture.ext None
                          Samples.failing_file "let x" ∅))
     = [DoneError Samples.rejection].
Proof.
  destruct (transform_failure_reaches_done_unchanged
              Fixture.ext None Samples.failing_file "let x" ∅) as [Hnew Hold].
  split.
  - eapply (Hnew _ Samples.rejection); [| reflexivity].
    apply list_elem_of_further, list_elem_of_further, list_elem_of_here.
  - eapply (Hold _ Samples.rejection); [| reflexivity].
    apply list_elem_of_here.
Defined.



(** X8. In either variant, when [implementation.transform] is a function
    the run is the same whatever esbuild's own transform would do: the
    default transform plays no part. *)
Theorem function_implementation_replaces_default ext g tsconfig this source c f :
  (transform_member (LoaderOptions.implementation (read_options this)) = JsFunction f ->
   ESBuildLoader (with_default_transform g ext) this source c
   = ESBuildLoader ext this source c)
  /\
  (transform_member (LoaderOptions.implementation (getOptions this)) = JsFunction f ->
   SingleTsconfig.ESBuildLoader (with_default_transform g ext) tsconfig this source c
   = SingleTsconfig.ESBuildLoader ext tsconfig this source c).
Proof.
  split; intros Hf.
  - unfold ESBuildLoader. rewrite Hf. reflexivity.
  - unfold SingleTsconfig.ESBuildLoader. rewrite Hf. reflexivity.
Qed.

Lemma function_implementation_replaces_default_witness :
  ESBuildLoader (with_default_transform Samples.other_esbuild Fixture.ext)
    Fixture.custom_file "export {}" ∅
  = ESBuildLoader Fixture.ext Fixture.custom_file "export {}" ∅
  /\ SingleTsconfig.ESBuildLoader
       (with_default_transform Samples.other_esbuild Fixture.ext) None
       Fixture.custom_file "export {}" ∅
     = SingleTsconfig.ESBuildLoader Fixture.ext None Fixture.custom_file "export {}" ∅.
Proof.
  destruct (function_implementation_replaces_default
              Fixture.ext Samples.other_esbuild None Fixture.custom_file "export {}" ∅
              Fixture.custom_transform) as [Hnew Hold].
  split; [exact (Hnew eq_refl) | exact (Hold eq_refl)].
Defined.

(** X14. The early loader never touches the cache, never warns, runs no
    tsconfig resolution, and the last thing it does is call [done]; without
    a [tsconfigRaw] key it hands the project's tsconfig to the transform for
    every file, files under node_modules included. *)
Theorem early_loader_runs_no_resolution ext tsconfig this source c :
  let options := getOptions this in
  let s := SingleTsconfig.ESBuildLoader ext tsconfig this source c in
  cache s = c
  /\ warnings (trace s) = []
  /\ resolution_events (trace s) = []
  /\ (exists pre a, trace s = (pre ++ [EvDone a])%list)
  /\ (invalid_implementation (LoaderOptions.implementation options) = false ->
      has_key (LoaderOptions.tsconfigRaw options) = false ->
      TransformOptions.tsconfigRaw <$> transform_requests (trace s) = [assign tsconfig]).
Proof.
  intros options s. subst s options.
  destruct (invalid_implementation
              (LoaderOptions.implementation (getOptions this))) eqn:Himpl.
  - rewrite (early_loader_rejects _ _ _ _ _ Himpl). cbn [cache trace].
    split; [reflexivity |]. split; [reflexivity |]. split; [reflexivity |].
    split; [eexists [], _; reflexivity | discriminate].
  - rewrite (early_loader_runs _ _ _ _ _ Himpl). cbv zeta. cbn [cache trace].
    match goal with |- context [completion_events ext ?o] =>
      destruct (completion_events_quiet ext o) as (Hreq & Hwarn & Hres & _);
      destruct (completion_events_end ext o) as (pre & a & Hend & _)
    end.
    split; [reflexivity |].
    split; [read_trace; exact Hwarn |].
    split; [unfold resolution_events in *; cbn; exact Hres |].
    split.
    + rewrite Hend. eexists (_ :: pre), a. reflexivity.
    + intros _ Hkey. read_trace. rewrite Hreq, Hkey. reflexivity.
Qed.

Lemma early_loader_runs_no_resolution_witness :
  isDependency Fixture.ext (LoaderContext.resourcePath Fixture.dependency_js) = true
  /\ TransformOptions.tsconfigRaw <$>
       transform_requests
         (trace (SingleTsconfig.ESBuildLoader Fixture.ext (Some Fixture.project_tsconfig)
                   Fixture.dependency_js "module.exports = 1" ∅))
     = [Value Fixture.project_tsconfig].
Proof.
  split; [reflexivity |].
  destruct (early_loader_runs_no_resolution
              Fixture.ext (Some Fixture.project_tsconfig)
              Fixture.dependency_js "module.exports = 1" ∅)
    as (_ & _ & _ & _ & Hraw).
  exact (Hraw eq_refl eq_refl).
Defined.

(** *** The options and the path of the file *)

Lemma read_options_override update this :
  read_options (override_options update this) = update (read_options this).
Proof. unfold read_options, override_options. cbn. destruct (LoaderContext.getOptions this); reflexivity. Qed.

Lemma resolve_tsconfig_falsy_path ext resourcePath tsconfigPath opts c :
  truthy tsconfigPath = false ->
  resolve_tsconfig ext resourcePath tsconfigPath opts c
  = resolve_tsconfig ext resourcePath None opts c.
Proof.
  intros H. unfold resolve_tsconfig. rewrite H. cbn [truthy].
  rewrite !andb_false_r. reflexivity.
Qed.

Lemma loader_depends_on_resolution ext this this' source c :
  read_options this' = with_tsconfig_option (LoaderOptions.tsconfig (read_options this'))
                         (read_options this) ->
  LoaderContext.resourcePath this' = LoaderContext.resourcePath this ->
  LoaderContext.sourceMap this' = LoaderContext.sourceMap this ->
  resolve_tsconfig ext (LoaderContext.resourcePath this)
    (LoaderOptions.tsconfig (read_options this'))
    (initial_transformOptions this (read_options this)) c
  = resolve_tsconfig ext (LoaderContext.resourcePath this)
      (LoaderOptions.tsconfig (read_options this))
      (initial_transformOptions this (read_options this)) c ->
  ESBuildLoader ext this' source c = ESBuildLoader ext this source c.
Proof.
  intros Hopts Hpath Hmap Hres.
  assert (Hinit : initial_transformOptions this' (read_options this')
                  = initial_transformOptions this (read_options this)).
  { unfold initial_transformOptions. rewrite Hopts, Hpath, Hmap. reflexivity. }
  assert (Himpl : LoaderOptions.implementation (read_options this')
                  = LoaderOptions.implementation (read_options this))
    by (rewrite Hopts; reflexivity).
  destruct (invalid_implementation
              (LoaderOptions.implementation (read_options this))) eqn:Hinv.
  - rewrite (loader_rejects ext this source c Hinv).
    rewrite (loader_rejects ext this' source c) by (rewrite Himpl; exact Hinv).
    rewrite Himpl. reflexivity.
  - rewrite (loader_runs ext this source c Hinv).
    rewrite (loader_runs ext this' source c) by (rewrite Himpl; exact Hinv).
    cbv zeta. rewrite Hinit, Hpath, Hres, Himpl. reflexivity.
Qed.

(** The run depends on the context only through the implementation, the
    [tsconfig] option, the path of the file and the request built at lines
    43-49. *)
Lemma loader_depends_on_request ext this this' source c :
  LoaderOptions.implementation (read_options this')
    = LoaderOptions.implementation (read_options this) ->
  LoaderOptions.tsconfig (read_options this') = LoaderOptions.tsconfig (read_options this) ->
  LoaderContext.resourcePath this' = LoaderContext.resourcePath this ->
  initial_transformOptions this' (read_options this')
    = initial_transformOptions this (read_options this) ->
  ESBuildLoader ext this' source c = ESBuildLoader ext this source c.
Proof.
  intros Himpl Hpath Hfile Hinit. unfold ESBuildLoader. cbv zeta.
  rewrite Himpl, Hpath, Hfile, Hinit. reflexivity.
Qed.

Lemma early_loader_depends_on_request ext tsconfig this this' source c :
  LoaderOptions.implementation (getOptions this')
    = LoaderOptions.implementation (getOptions this) ->
  early_transformOptions this' (getOptions this')
    = early_transformOptions this (getOptions this) ->
  SingleTsconfig.ESBuildLoader ext tsconfig this' source c
  = SingleTsconfig.ESBuildLoader ext tsconfig this source c.
Proof.
  intros Himpl Hinit. unfold SingleTsconfig.ESBuildLoader. cbv zeta.
  rewrite Himpl, Hinit. reflexivity.
Qed.

Lemma forwarded_keys_insert key value passthrough :
  key = "sourcemap" \/ key = "sourcefile" ->
  forwarded_keys (<[key := value]> passthrough) = forwarded_keys (delete key passthrough).
Proof.
  intros Hkey. unfold forwarded_keys. apply map_eq. intros k.
  destruct (decide ("sourcefile" = k)) as [<- | Hfile].
  { rewrite !lookup_delete_eq. reflexivity. }
  rewrite !(lookup_delete_ne _ "sourcefile") by exact Hfile.
  destruct (decide ("sourcemap" = k)) as [<- | Hmap].
  { rewrite !lookup_delete_eq. reflexivity. }
  rewrite !(lookup_delete_ne _ "sourcemap") by exact Hmap.
  destruct Hkey as [-> | ->].
  - rewrite lookup_insert_ne, lookup_delete_ne by exact Hmap. reflexivity.
  - rewrite lookup_insert_ne, lookup_delete_ne by exact Hfile. reflexivity.
Qed.

Lemma forwarded_keys_lookup key passthrough :
  key = "sourcemap" \/ key = "sourcefile" ->
  forwarded_keys passthrough !! key = None.
Proof.
  unfold forwarded_keys. intros [-> | ->].
  - rewrite lookup_delete_ne by discriminate. apply lookup_delete_eq.
  - apply lookup_delete_eq.
Qed.

(** X3. The options bag cannot set [sourcemap] or [sourcefile]: the object
    literal writes both after the spread of the bag.  In either variant a
    run with such a key in the bag is the run without it, and every request
    handed to the transform has [sourcemap] and [sourcefile] from the loader
    context and neither key among those forwarded from the bag. *)
Theorem bag_cannot_set_sourcemap_or_sourcefile ext tsconfig this source c key :
  key = "sourcemap" \/ key = "sourcefile" ->
  (forall value,
     ESBuildLoader ext (override_options (with_bag_key key (Some value)) this) source c
     = ESBuildLoader ext (override_options (with_bag_key key None) this) source c)
  /\ (forall value,
        SingleTsconfig.ESBuildLoader ext tsconfig
          (override_options (with_bag_key key (Some value)) this) source c
        = SingleTsconfig.ESBuildLoader ext tsconfig
            (override_options (with_bag_key key None) this) source c)
  /\ (forall r,
        r ∈ transform_requests (trace (ESBuildLoader ext this source c)) ->
        TransformOptions.sourcemap r = LoaderContext.sourceMap this
        /\ TransformOptions.sourcefile r = LoaderContext.resourcePath this
        /\ TransformOptions.passthrough r !! key = None)
  /\ (forall r,
        r ∈ transform_requests
              (trace (SingleTsconfig.ESBuildLoader ext tsconfig this source c)) ->
        TransformOptions.sourcemap r = LoaderContext.sourceMap this
        /\ TransformOptions.sourcefile r = LoaderContext.resourcePath this
        /\ TransformOptions.passthrough r !! key = None).
Proof.
  intros Hkey.
  split; [| split; [| split]].
  - intros value. apply loader_depends_on_request;
      rewrite ?read_options_override; try reflexivity.
    unfold initial_transformOptions.
    cbn [with_bag_key override_options LoaderOptions.passthrough LoaderOptions.target
         LoaderOptions.loader LoaderOptions.tsconfigRaw LoaderOptions.supported
         LoaderContext.sourceMap LoaderContext.resourcePath].
    rewrite (forwarded_keys_insert _ _ _ Hkey). reflexivity.
  - intros value. apply early_loader_depends_on_request; [reflexivity |].
    unfold early_transformOptions, getOptions.
    cbn [with_bag_key override_options LoaderOptions.passthrough LoaderOptions.target
         LoaderOptions.loader LoaderOptions.tsconfigRaw LoaderOptions.supported
         LoaderOptions.tsconfig LoaderContext.query
         LoaderContext.sourceMap LoaderContext.resourcePath].
    rewrite (forwarded_keys_insert _ _ _ Hkey). reflexivity.
  - intros r Hr. destruct (loader_request_shape _ _ _ _ _ Hr) as [raw ->].
    split; [reflexivity |]. split; [reflexivity |].
    cbn [enable_dynamic_import set_supported set_tsconfigRaw initial_transformOptions
         TransformOptions.passthrough].
    apply forwarded_keys_lookup. exact Hkey.
  - intros r.
    destruct (invalid_implementation
                (LoaderOptions.implementation (getOptions this))) eqn:Himpl.
    { rewrite (early_loader_rejects _ _ _ _ _ Himpl). intros H; inversion H. }
    rewrite (early_loader_runs _ _ _ _ _ Himpl). cbv zeta. cbn [trace].
    read_trace.
    match goal with |- context [completion_events ext ?o] =>
      destruct (completion_events_quiet ext o) as (-> & _) end.
    intros H. apply list_elem_of_singleton in H. subst r.
    assert (Hfwd : TransformOptions.passthrough
                     (early_transformOptions this (getOptions this)) !! key = None).
    { unfold early_transformOptions. cbn [TransformOptions.passthrough].
      destruct (LoaderOptions.tsconfig (getOptions this)).
      - rewrite lookup_insert_ne by (destruct Hkey as [-> | ->]; discriminate).
        apply forwarded_keys_lookup. exact Hkey.
      - apply forwarded_keys_lookup. exact Hkey. }
    destruct (has_key (LoaderOptions.tsconfigRaw (getOptions this)));
      (split; [reflexivity |]; split; [reflexivity |]; exact Hfwd).
Qed.

Lemma bag_cannot_set_sourcemap_or_sourcefile_witness :
  LoaderOptions.passthrough (read_options Samples.file_with_sourcemap_option) !! "sourcemap"
  = Some (JBool false)
  /\ ESBuildLoader Fixture.ext
       (override_options (with_bag_key "sourcemap" (Some (JBool false)))
          Samples.file_with_sourcemap_option) "let x" ∅
     = ESBuildLoader Fixture.ext
         (override_options (with_bag_key "sourcemap" None)
            Samples.file_with_sourcemap_option) "let x" ∅
  /\ (let r := enable_dynamic_import
                 (set_tsconfigRaw (Value Fixture.project_tsconfig)
                    (initial_transformOptions Samples.file_with_sourcemap_option
                       (read_options Samples.file_with_sourcemap_option))) in
      r ∈ transform_requests
            (trace (ESBuildLoader Fixture.ext Samples.file_with_sourcemap_option "let x" ∅))
      /\ TransformOptions.sourcemap r = true
      /\ TransformOptions.sourcefile r = "/project/src/index.ts"
      /\ TransformOptions.passthrough r !! "sourcemap" = None).
Proof.
  destruct (bag_cannot_set_sourcemap_or_sourcefile
              Fixture.ext None Samples.file_with_sourcemap_option "let x" ∅
              "sourcemap" (or_introl eq_refl)) as (Hrun & _ & Hreq & _).
  split; [reflexivity |].
  split; [apply Hrun |].
  cbv zeta.
  match goal with |- ?r ∈ ?l /\ _ =>
    assert (Hin : r ∈ l) by (apply list_elem_of_here)
  end.
  split; [exact Hin |]. exact (Hreq _ Hin).
Defined.

(** X10. An empty string as [tsconfig] option is no option: the run is the
    run without the option. *)
Theorem empty_tsconfig_option_is_no_option ext this source c :
  ESBuildLoader ext
    (override_options (with_tsconfig_option (Some EmptyString)) this) source c
  = ESBuildLoader ext (override_options (with_tsconfig_option None) this) source c.
Proof.
  apply loader_depends_on_resolution.
  - rewrite !read_options_override. reflexivity.
  - reflexivity.
  - reflexivity.
  - rewrite !read_options_override. cbn [LoaderOptions.tsconfig with_tsconfig_option].
    apply resolve_tsconfig_falsy_path. reflexivity.
Qed.

(** X11. For a file under node_modules the [tsconfig] option has no
    effect at all: the run is the run without the option. *)
Theorem dependency_ignores_tsconfig_option ext this source c tsconfigPath :
  isDependency ext (LoaderContext.resourcePath this) = true ->
  ESBuildLoader ext
    (override_options (with_tsconfig_option tsconfigPath) this) source c
  = ESBuildLoader ext (override_options (with_tsconfig_option None) this) source c.
Proof.
  intros Hdep. apply loader_depends_on_resolution.
  - rewrite !read_options_override. reflexivity.
  - reflexivity.
  - reflexivity.
  - rewrite !read_options_override. cbn [LoaderOptions.tsconfig with_tsconfig_option].
    cbn [override_options LoaderContext.resourcePath].
    rewrite !resolve_dependency by exact Hdep. reflexivity.
Qed.

Lemma dependency_ignores_tsconfig_option_witness :
  isDependency Fixture.ext (LoaderContext.resourcePath Fixture.dependency_ts) = true
  /\ ESBuildLoader Fixture.ext
       (override_options (with_tsconfig_option (Some "tsconfig.build.json"))
          Fixture.dependency_ts) "export {}" ∅
     = ESBuildLoader Fixture.ext
         (override_options (with_tsconfig_option None) Fixture.dependency_ts)
         "export {}" ∅.
Proof.
  split; [reflexivity |].
  apply (dependency_ignores_tsconfig_option
           Fixture.ext Fixture.dependency_ts "export {}" ∅
           (Some "tsconfig.build.json") eq_refl).
Defined.

(** X12. For a project file (valid implementation, no [tsconfigRaw] key)
    the loader always starts by resolving a tsconfig, whatever the file's
    extension: by the cache lookup of the specified path when the [tsconfig]
    option is non-empty, by [getTsconfig] on the file's path otherwise. *)
Theorem project_file_always_attempts_tsconfig ext this source c :
  let options := read_options this in
  let resourcePath := LoaderContext.resourcePath this in
  let s := ESBuildLoader ext this source c in
  invalid_implementation (LoaderOptions.implementation options) = false ->
  has_key (LoaderOptions.tsconfigRaw options) = false ->
  isDependency ext resourcePath = false ->
  exists rest,
    trace s =
      (if truthy (LoaderOptions.tsconfig options)
       then EvCacheGet
              (cacheKey (path_resolve ext
                           (nullish (LoaderOptions.tsconfig options) EmptyString)))
       else EvGetTsconfig resourcePath "tsconfig.json"
              (getTsconfig ext resourcePath "tsconfig.json" c).2)
      :: rest.
Proof.
  intros options resourcePath s Himpl Hkey Hdep.
  subst s options resourcePath.
  rewrite (loader_runs _ _ _ _ Himpl). cbv zeta.
  destruct (truthy (LoaderOptions.tsconfig (read_options this))) eqn:Htruthy.
  - destruct (LoaderOptions.tsconfig (read_options this)) as [p |] eqn:Hp;
      [| discriminate Htruthy].
    assert (Hne : p ≠ EmptyString).
    { intros ->. discriminate Htruthy. }
    rewrite resolve_specified by first [exact Hkey | exact Hdep | exact Hne].
    cbn [nullish].
    destruct (apply_specified_cases ext (LoaderContext.resourcePath this) p
                (initial_transformOptions this (read_options this)) c)
      as [(tsconfig & c' & evs & Hres & ->) | (c' & e & _ & _ & ->)];
      cbn [completion trace cache].
    + destruct Hres; eexists; reflexivity.
    + eexists; reflexivity.
  - rewrite resolve_detected by (try exact Hkey; left; split; assumption).
    rewrite apply_detected_run.
    destruct (detected_step_trace ext (LoaderContext.resourcePath this)
                (initial_transformOptions this (read_options this))
                (getTsconfig ext (LoaderContext.resourcePath this) "tsconfig.json" c).1
                (getTsconfig ext (LoaderContext.resourcePath this) "tsconfig.json" c).2)
      as (rest & Htr & _).
    destruct (detected_step _ _ _ _ _) as [c1 tr1 [opts | | e]];
      cbn [trace completion cache] in *; subst tr1; eexists; reflexivity.
Qed.

Lemma project_file_always_attempts_tsconfig_witness :
  test tsExtensionsPattern (LoaderContext.resourcePath Samples.javascript_file) = false
  /\ exists rest,
       trace (ESBuildLoader Fixture.ext Samples.javascript_file "var x" ∅)
       = EvGetTsconfig "/project/src/index.js" "tsconfig.json"
           (inr (Some (TsConfigResult.mk Fixture.project_tsconfig
                         "/project/tsconfig.json"))) :: rest.
Proof.
  split; [reflexivity |].
  exact (project_file_always_attempts_tsconfig
           Fixture.ext Samples.javascript_file "var x" ∅ eq_refl eq_refl eq_refl).
Defined.

(** X9. When [getTsconfig] throws something that is not an [Error], the
    loader ignores it, for project files too: no warning, no error handed to
    [done], and the transform is called next, with no [tsconfigRaw] key. *)
Theorem non_error_throw_in_detection_is_swallowed ext this source c c' v :
  let options := read_options this in
  let resourcePath := LoaderContext.resourcePath this in
  let s := ESBuildLoader ext this source c in
  invalid_implementation (LoaderOptions.implementation options) = false ->
  has_key (LoaderOptions.tsconfigRaw options) = false ->
  (isDependency ext resourcePath = false /\ truthy (LoaderOptions.tsconfig options) = false)
  \/ (isDependency ext resourcePath = true
      /\ test tsExtensionsPattern resourcePath = true) ->
  getTsconfig ext resourcePath "tsconfig.json" c = (c', inl (ThrownValue v)) ->
  warnings (trace s) = []
  /\ completion s = Normal tt
  /\ exists r rest,
       trace s = (EvGetTsconfig resourcePath "tsconfig.json" (inl (ThrownValue v))
                    :: EvTransform source r :: rest)
       /\ TransformOptions.tsconfigRaw r = Missing.
Proof.
  intros options resourcePath s Himpl Hkey Hbranch Hget.
  subst s options resourcePath.
  rewrite (loader_runs _ _ _ _ Himpl). cbv zeta.
  rewrite resolve_detected by first [exact Hkey | exact Hbranch].
  rewrite apply_detected_run, Hget. unfold detected_step. cbn [fst snd completion trace cache].
  set (r := enable_dynamic_import _).
  set (f := chosen_transform ext _).
  destruct (completion_events_quiet ext (f source r)) as (_ & Hwarn & _).
  split; [read_trace; rewrite Hwarn; reflexivity |].
  split; [reflexivity |].
  exists r, (completion_events ext (f source r)). split; [reflexivity |].
  subst r. cbn.
  destruct (LoaderOptions.tsconfigRaw (read_options this)); try discriminate Hkey.
  reflexivity.
Qed.

Lemma non_error_throw_in_detection_is_swallowed_witness :
  (let s := ESBuildLoader Samples.ext_throwing_value Fixture.included_file "let x" ∅ in
   warnings (trace s) = []
   /\ completion s = Normal tt
   /\ TransformOptions.tsconfigRaw <$> transform_requests (trace s) = [Missing]).
Proof.
  destruct (non_error_throw_in_detection_is_swallowed
              Samples.ext_throwing_value Fixture.included_file "let x" ∅ ∅
              (JStr "not an error")
              eq_refl eq_refl (or_introl (conj eq_refl eq_refl)) eq_refl)
    as (Hwarn & Hdone & r & rest & Htr & Hraw).
  cbv zeta. split; [exact Hwarn |]. split; [exact Hdone |]. reflexivity.
Defined.

(** *** What a run leaves in the cache *)

Lemma resolve_tsconfig_cache_entry ext resourcePath tsconfigPath opts c full :
  keeps_loader_entries ext ->
  let st := resolve_tsconfig ext resourcePath tsconfigPath opts c in
  cache st !! cacheKey full = entry_after full (c !! cacheKey full) (trace st).
Proof.
  intros Hkeeps.
  pose proof (resolve_tsconfig_parses ext resourcePath tsconfigPath opts c full Hkeeps)
    as (_ & Hkept & _).
  cbv zeta in *. unfold entry_after.
  destruct (c !! cacheKey full) as [t |] eqn:Hc.
  { destruct (Hkept t eq_refl) as [_ H]. exact H. }
  clear Hkept. destruct Hkeeps as [Hparse_frame Hget_frame].
  unfold resolve_tsconfig.
  destruct (negb (has_key (TransformOptions.tsconfigRaw opts))
            && (negb (isDependency ext resourcePath)
                || test tsExtensionsPattern resourcePath)).
  2: { cbn. exact Hc. }
  destruct (negb (isDependency ext resourcePath) && truthy tsconfigPath).
  - pose proof (apply_specified_cases ext resourcePath
                  (nullish tsconfigPath EmptyString) opts c) as Hcases.
    set (full' := path_resolve ext (nullish tsconfigPath EmptyString)) in *.
    destruct Hcases
      as [(tsconfig & c' & evs & Hres & ->) | (c' & e & Hmiss & Hparse & ->)];
      cbn [trace cache].
    + destruct (mismatch_events_no_parse ext full tsconfig full' resourcePath)
        as [Hmis _].
      rewrite successful_parses_app, successful_parses_cons, Hmis.
      cbn [is_parse_of]. rewrite app_nil_r.
      destruct Hres as [t Hhit | c1 config Hmiss Hparse].
      * cbn. exact Hc.
      * rewrite !successful_parses_cons. cbn [is_parse_of successful_parses List.filter].
        destruct (String.eqb_spec full' full) as [-> | Hne].
        -- rewrite lookup_insert_eq. reflexivity.
        -- rewrite lookup_insert_ne by (intros Heq; apply Hne, cacheKey_inj, Heq).
           specialize (Hparse_frame full' c full). rewrite Hparse in Hparse_frame.
           cbn [fst] in Hparse_frame. rewrite Hparse_frame. exact Hc.
    + cbn. specialize (Hparse_frame full' c full). rewrite Hparse in Hparse_frame.
      cbn [fst] in Hparse_frame. rewrite Hparse_frame. exact Hc.
  - rewrite apply_detected_run.
    specialize (Hget_frame resourcePath "tsconfig.json" c full).
    revert Hget_frame.
    generalize (getTsconfig ext resourcePath "tsconfig.json" c).1 as c'.
    generalize (getTsconfig ext resourcePath "tsconfig.json" c).2 as r.
    intros r c' Hframe. unfold detected_step.
    destruct r as [[e | v] | [t |]]; try destruct (isDependency ext resourcePath);
      cbn; rewrite Hframe; exact Hc.
Qed.

Lemma loader_cache_entry ext this source c full :
  keeps_loader_entries ext ->
  cache (ESBuildLoader ext this source c) !! cacheKey full
  = entry_after full (c !! cacheKey full) (trace (ESBuildLoader ext this source c)).
Proof.
  intros Hkeeps.
  destruct (invalid_implementation
              (LoaderOptions.implementation (read_options this))) eqn:Himpl.
  - rewrite (loader_rejects _ _ _ _ Himpl). cbn [cache trace].
    unfold entry_after. destruct (c !! cacheKey full); reflexivity.
  - rewrite (loader_runs _ _ _ _ Himpl). cbv zeta.
    pose proof (resolve_tsconfig_cache_entry ext (LoaderContext.resourcePath this)
                  (LoaderOptions.tsconfig (read_options this))
                  (initial_transformOptions this (read_options this)) c full Hkeeps)
      as Hst.
    cbv zeta in Hst.
    destruct (resolve_tsconfig ext _ _ _ c) as [c1 tr1 [opts | | e]];
      cbn [trace completion cache] in *; try exact Hst.
    rewrite Hst. unfold entry_after.
    rewrite successful_parses_app, successful_parses_cons.
    cbn [is_parse_of]. rewrite completion_events_no_parse, app_nil_r. reflexivity.
Qed.

(** X15. Provided get-tsconfig leaves the loader's entries alone, a run
    changes the loader's cache entry for a resolved path in one way only: an
    entry that is there stays as it is, and an absent one appears exactly
    when the run parsed that tsconfig successfully, holding the parsed
    content and that path.  Detection results and failed parses are never
    cached. *)
Theorem cache_entry_after_a_run ext this source c full :
  keeps_loader_entries ext ->
  let s := ESBuildLoader ext this source c in
  cache s !! cacheKey full =
    match c !! cacheKey full with
    | Some tsconfig => Some tsconfig
    | None =>
        match successful_parses full (trace s) with
        | EvParseTsconfig _ (inr config) :: _ => Some (TsConfigResult.mk config full)
        | _ => None
        end
    end.
Proof.
  intros Hkeeps s. subst s. apply loader_cache_entry. exact Hkeeps.
Qed.

Lemma cache_entry_after_a_run_witness :
  keeps_loader_entries Fixture.ext
  /\ cache (ESBuildLoader Fixture.ext Fixture.included_file_with_tsconfig "let x" ∅)
       !! cacheKey "/project/tsconfig.build.json"
     = Some (TsConfigResult.mk Fixture.project_tsconfig "/project/tsconfig.build.json")
  /\ cache (ESBuildLoader Fixture.ext Fixture.included_file "let x" ∅)
       !! cacheKey "/project/tsconfig.json"
     = None.
Proof.
  split; [exact fixture_keeps_loader_entries |].
  split.
  - rewrite (cache_entry_after_a_run Fixture.ext Fixture.included_file_with_tsconfig
               "let x" ∅ "/project/tsconfig.build.json" fixture_keeps_loader_entries).
    rewrite lookup_empty. reflexivity.
  - rewrite (cache_entry_after_a_run Fixture.ext Fixture.included_file
               "let x" ∅ "/project/tsconfig.json" fixture_keeps_loader_entries).
    rewrite lookup_empty. reflexivity.
Defined.

Lemma empty_cache_keyed_by_path : keyed_by_path ∅.
Proof. intros full t H. rewrite lookup_empty in H. discriminate. Qed.

(** X16. Provided get-tsconfig leaves the loader's entries alone, a build
    keeps the cache well keyed: if every record under a loader key names the
    path its key was made from (as in the empty cache), so it is after any
    sequence of files. *)
Theorem cache_records_carry_their_key ext jobs c :
  keeps_loader_entries ext ->
  keyed_by_path c ->
  keyed_by_path (build_process ext jobs c).1.
Proof.
  intros Hkeeps. revert c.
  induction jobs as [| [this source] jobs IH]; intros c Hc; [exact Hc |].
  cbn [build_process fst snd]. apply IH.
  intros full t. rewrite (loader_cache_entry ext this source c full Hkeeps). unfold entry_after.
  destruct (c !! cacheKey full) as [t0 |] eqn:Hold.
  - intros [= <-]. apply Hc. exact Hold.
  - destruct (successful_parses full (trace (ESBuildLoader ext this source c)))
      as [| [? | ? ? | ? [? | config] | ? ? ? | ? ? | ? | ? ? | ? | ?] ?];
      try discriminate.
    intros [= <-]. reflexivity.
Qed.

Lemma cache_records_carry_their_key_witness :
  keeps_loader_entries Fixture.ext
  /\ keyed_by_path ∅
  /\ keyed_by_path
       (build_process Fixture.ext
          ((Fixture.excluded_file_with_tsconfig, "let a") :: Fixture.other_jobs) ∅).1.
Proof.
  split; [exact fixture_keeps_loader_entries |].
  split; [exact empty_cache_keyed_by_path |].
  exact (cache_records_carry_their_key Fixture.ext _ ∅
           fixture_keeps_loader_entries empty_cache_keyed_by_path).
Defined.

(** X17. Provided get-tsconfig leaves the loader's entries alone, the
    loader never evicts: a record in the cache under a loader key is still
    there, unchanged, after any sequence of files. *)
Theorem loader_entries_are_never_evicted ext jobs c full tsconfig :
  keeps_loader_entries ext ->
  c !! cacheKey full = Some tsconfig ->
  (build_process ext jobs c).1 !! cacheKey full = Some tsconfig.
Proof.
  intros Hkeeps Hc.
  destruct (build_process_parses ext jobs c full Hkeeps) as (_ & Hkept).
  exact (proj2 (Hkept tsconfig Hc)).
Qed.

Lemma loader_entries_are_never_evicted_witness :
  keeps_loader_entries Fixture.ext
  /\ (build_process Fixture.ext Fixture.other_jobs
        (<[cacheKey "/project/tsconfig.build.json" :=
             TsConfigResult.mk Fixture.raw_config "/project/tsconfig.build.json"]> ∅)).1
       !! cacheKey "/project/tsconfig.build.json"
     = Some (TsConfigResult.mk Fixture.raw_config "/project/tsconfig.build.json").
Proof.
  split; [exact fixture_keeps_loader_entries |].
  apply (loader_entries_are_never_evicted Fixture.ext Fixture.other_jobs _ _ _
           fixture_keeps_loader_entries).
  apply lookup_insert_eq.
Defined.

(** X18. A failed parse is not remembered.  Provided get-tsconfig leaves
    the loader's entries alone, after a run that rejected because the
    specified tsconfig did not parse, the cache has no entry for it, and the
    next file with a [tsconfig] option of the same resolved path looks the
    entry up and calls [parseTsconfig] on that path again. *)
Theorem failed_parse_is_not_cached ext this1 source1 this2 source2 path1 path2 c e :
  keeps_loader_entries ext ->
  specifies_tsconfig ext this1 path1 ->
  specifies_tsconfig ext this2 path2 ->
  path_resolve ext path1 = path_resolve ext path2 ->
  let full := path_resolve ext path1 in
  let s1 := ESBuildLoader ext this1 source1 c in
  let s2 := ESBuildLoader ext this2 source2 (cache s1) in
  completion s1 = Threw e ->
  cache s1 !! cacheKey full = None
  /\ exists rest,
       trace s2 = EvCacheGet (cacheKey full)
                    :: EvParseTsconfig full (parseTsconfig ext full (cache s1)).2
                    :: rest.
Proof.
  intros [Hframe _] Hfirst (Himpl2 & Hdep2 & Hpath2 & Hne2 & Hkey2) Hsame full s1 s2 Hrej.
  subst full.
  apply rejection_inv in Hrej.
  destruct Hrej as (_ & _ & _ & p & Hp & _ & Hmiss & Hparse).
  destruct Hfirst as (_ & _ & Hpath1 & _).
  rewrite Hpath1 in Hp. injection Hp as <-.
  fold s1 in Hparse.
  assert (Hnone : cache s1 !! cacheKey (path_resolve ext path1) = None).
  { specialize (Hframe (path_resolve ext path1) c (path_resolve ext path1)).
    rewrite Hparse in Hframe. cbn [fst] in Hframe.
    rewrite Hframe. exact Hmiss. }
  split; [exact Hnone |].
  subst s2. rewrite (loader_runs _ _ _ _ Himpl2). cbv zeta. rewrite Hpath2.
  rewrite resolve_specified by first [exact Hkey2 | exact Hdep2 | exact Hne2].
  destruct (apply_specified_cases ext (LoaderContext.resourcePath this2) path2
              (initial_transformOptions this2 (read_options this2)) (cache s1))
    as [(tsconfig & c' & evs & Hres & ->) | (c' & e' & _ & Hparse2 & ->)];
    rewrite <- Hsame in *; cbn [completion trace cache].
  - destruct Hres as [t Hhit | c1 config _ Hparse2].
    + rewrite Hnone in Hhit. discriminate.
    + rewrite Hparse2. cbn [snd]. eexists. reflexivity.
  - rewrite Hparse2. cbn [snd]. eexists. reflexivity.
Qed.

Lemma failed_parse_is_not_cached_witness :
  keeps_loader_entries Fixture.ext
  /\ (let s1 := ESBuildLoader Fixture.ext Samples.broken_tsconfig_file "let a" ∅ in
      let s2 := ESBuildLoader Fixture.ext Samples.broken_tsconfig_file "let b" (cache s1) in
      completion s1 = Threw Fixture.syntax_error
      /\ cache s1 !! cacheKey "/project/broken.json" = None
      /\ exists rest,
           trace s2 = EvCacheGet (cacheKey "/project/broken.json")
                        :: EvParseTsconfig "/project/broken.json" (inl Fixture.syntax_error)
                        :: rest).
Proof.
  split; [exact fixture_keeps_loader_entries |].
  assert (Hne : "broken.json" ≠ EmptyString) by discriminate.
  assert (Hspec : specifies_tsconfig Fixture.ext Samples.broken_tsconfig_file "broken.json")
    by (repeat split; exact Hne).
  cbv zeta. split; [reflexivity |].
  exact (failed_parse_is_not_cached Fixture.ext
           Samples.broken_tsconfig_file "let a" Samples.broken_tsconfig_file "let b"
           "broken.json" "broken.json" ∅ Fixture.syntax_error
           fixture_keeps_loader_entries Hspec Hspec eq_refl eq_refl).
Defined.
